(** * The bundler of [src/AA/bundler.py]: record store, intake, submission
      worker and status queries.

    The service keeps one SQLite table, [operations], and exposes three HTTP
    endpoints.  [submit_op] inserts a [pending] row and schedules
    [process_op]; [process_op] talks to the chain and writes the terminal
    status; [get_status] and [get_history] read the table.

    The embedding follows the Python text.  Everything outside the repository
    that the code calls is an explicit input of the model:
    - [uuid.uuid4()] and [time.time()] are arguments of [submit_op];
    - the calls on [w3] are the fields of a [gateway], each of which either
      returns or raises;
    - [json.dumps] is modelled on the values the code hands to it.
    The SQLite file itself is taken to be reliable: a statement raises only
    for the reason SQL gives it (a duplicate primary key). *)

From Stdlib Require Import List String Ascii ZArith Bool Arith Lia DecimalString.
Import ListNotations.
Local Open Scope list_scope.
Local Open Scope string_scope.
Set Warnings "-register-all".

(** ** Python exceptions *)

Inductive exception : Type :=
| TypeError                                  (* json.dumps: not serialisable *)
| IntegrityError                             (* sqlite3: UNIQUE constraint failed *)
| Web3Error (what : string)                  (* anything a call on w3 raises *)
| RequestValidationError                     (* FastAPI: body is not a UserOperation *)
| HTTPException (status_code : Z) (detail : string).

(** A computation that returns a value or raises. *)
Inductive py (A : Type) : Type :=
| Return (a : A)
| Raise (e : exception).
Arguments Return {A} a.
Arguments Raise {A} e.

Definition bind {A B : Type} (m : py A) (k : A -> py B) : py B :=
  match m with
  | Return a => k a
  | Raise e => Raise e
  end.

Notation "x <- m ;; k" := (bind m (fun x => k))
  (at level 61, m at next level, right associativity).

(** [try: body  except Exception as e: handler] *)
Definition try_except {A : Type} (body : py A) (handler : py A) : py A :=
  match body with
  | Return a => Return a
  | Raise _ => handler
  end.

(** ** Python values and [json.dumps] *)

(** The Python values that occur in a request body or in a receipt, as far as
    [json.dumps] tells them apart.  [PyBytes] stands for [bytes] and its
    subclasses, which [json.dumps] refuses.  A [str] is a sequence of code
    points below 256; a [dict] is the list of its items in iteration order,
    with [str] keys. *)
Inductive pyval : Type :=
| PyNone
| PyBool (b : bool)
| PyInt (n : Z)
| PyStr (s : string)
| PyBytes (b : string)
| PyList (l : list pyval)
| PyDict (items : list (string * pyval)).

Module Json.

Definition quote : ascii := ascii_of_nat 34.
Definition backslash : ascii := ascii_of_nat 92.

Definition hex_digit (n : nat) : ascii :=
  nth n ["0"; "1"; "2"; "3"; "4"; "5"; "6"; "7";
         "8"; "9"; "a"; "b"; "c"; "d"; "e"; "f"]%char "0"%char.

(** [json.encoder.ESCAPE_ASCII]: quote, backslash and everything outside
    [' '..'~'] are escaped. *)
Definition escape_char (c : ascii) : string :=
  let n := nat_of_ascii c in
  let esc (x : ascii) := String backslash (String x EmptyString) in
  if Nat.eqb n 34 then esc quote
  else if Nat.eqb n 92 then esc backslash
  else if Nat.eqb n 8 then esc "b"%char
  else if Nat.eqb n 12 then esc "f"%char
  else if Nat.eqb n 10 then esc "n"%char
  else if Nat.eqb n 13 then esc "r"%char
  else if Nat.eqb n 9 then esc "t"%char
  else if Nat.ltb n 32 || Nat.ltb 126 n then
    String backslash
      (String "u" (String "0" (String "0"
         (String (hex_digit (n / 16)) (String (hex_digit (n mod 16)) EmptyString)))))
  else String c EmptyString.

Fixpoint escape (s : string) : string :=
  match s with
  | EmptyString => EmptyString
  | String c s' => escape_char c ++ escape s'
  end.

Definition dumps_str (s : string) : string :=
  String quote (escape s ++ String quote EmptyString).

Definition dumps_int (n : Z) : string := NilZero.string_of_int (Z.to_int n).

(** [", ".join(parts)] *)
Fixpoint join (parts : list string) : string :=
  match parts with
  | [] => EmptyString
  | [p] => p
  | p :: rest => p ++ ", " ++ join rest
  end.

(** [json.dumps(v)] with the default arguments. *)
Fixpoint dumps (v : pyval) : py string :=
  match v with
  | PyNone => Return "null"
  | PyBool true => Return "true"
  | PyBool false => Return "false"
  | PyInt n => Return (dumps_int n)
  | PyStr s => Return (dumps_str s)
  | PyBytes _ => Raise TypeError
  | PyList l =>
      parts <- (fix elements (l : list pyval) : py (list string) :=
                  match l with
                  | [] => Return []
                  | x :: l' =>
                      s <- dumps x ;; ss <- elements l' ;; Return (s :: ss)
                  end) l ;;
      Return ("[" ++ join parts ++ "]")
  | PyDict items =>
      parts <- (fix members (l : list (string * pyval)) : py (list string) :=
                  match l with
                  | [] => Return []
                  | (k, x) :: l' =>
                      s <- dumps x ;; ss <- members l' ;;
                      Return ((dumps_str k ++ ": " ++ s) :: ss)
                  end) items ;;
      Return ("{" ++ join parts ++ "}")
  end.

End Json.

(** ** The request model *)

(** [class UserOperation(BaseModel)] *)
Record UserOperation : Type := {
  sender : string;
  nonce : Z;
  initCode : string;
  callData : string;
  callGasLimit : Z;
  verificationGasLimit : Z;
  preVerificationGas : Z;
  maxFeePerGas : Z;
  maxPriorityFeePerGas : Z;
  signature : string;
  paymasterAndData : string
}.

(** [user_op.dict()] *)
Definition UserOperation_dict (u : UserOperation) : list (string * pyval) :=
  [ ("sender", PyStr u.(sender));
    ("nonce", PyInt u.(nonce));
    ("initCode", PyStr u.(initCode));
    ("callData", PyStr u.(callData));
    ("callGasLimit", PyInt u.(callGasLimit));
    ("verificationGasLimit", PyInt u.(verificationGasLimit));
    ("preVerificationGas", PyInt u.(preVerificationGas));
    ("maxFeePerGas", PyInt u.(maxFeePerGas));
    ("maxPriorityFeePerGas", PyInt u.(maxPriorityFeePerGas));
    ("signature", PyStr u.(signature));
    ("paymasterAndData", PyStr u.(paymasterAndData)) ].

(** The body of a POST request after the type check of the declared fields
    (see [typed_body] below for the body as it arrives): every field of the
    model is either absent or refused, or present with a value of the
    declared type. *)
Record request_body : Type := {
  body_sender : option string;
  body_nonce : option Z;
  body_initCode : option string;
  body_callData : option string;
  body_callGasLimit : option Z;
  body_verificationGasLimit : option Z;
  body_preVerificationGas : option Z;
  body_maxFeePerGas : option Z;
  body_maxPriorityFeePerGas : option Z;
  body_signature : option string;
  body_paymasterAndData : option string
}.

Definition required {A : Type} (field : option A) : py A :=
  match field with
  | Some a => Return a
  | None => Raise RequestValidationError
  end.

(** What the framework does with the declaration [user_op: UserOperation]:
    the model declares eleven fields, none with a default and none with a
    constraint, so the body validates exactly when all of them are there. *)
Definition validate (b : request_body) : py UserOperation :=
  f1 <- required b.(body_sender) ;;
  f2 <- required b.(body_nonce) ;;
  f3 <- required b.(body_initCode) ;;
  f4 <- required b.(body_callData) ;;
  f5 <- required b.(body_callGasLimit) ;;
  f6 <- required b.(body_verificationGasLimit) ;;
  f7 <- required b.(body_preVerificationGas) ;;
  f8 <- required b.(body_maxFeePerGas) ;;
  f9 <- required b.(body_maxPriorityFeePerGas) ;;
  f10 <- required b.(body_signature) ;;
  f11 <- required b.(body_paymasterAndData) ;;
  Return {| sender := f1; nonce := f2; initCode := f3; callData := f4;
            callGasLimit := f5; verificationGasLimit := f6;
            preVerificationGas := f7; maxFeePerGas := f8;
            maxPriorityFeePerGas := f9; signature := f10;
            paymasterAndData := f11 |}.

(** The body a client sends for a given operation. *)
Definition body_of (u : UserOperation) : request_body :=
  {| body_sender := Some u.(sender); body_nonce := Some u.(nonce);
     body_initCode := Some u.(initCode); body_callData := Some u.(callData);
     body_callGasLimit := Some u.(callGasLimit);
     body_verificationGasLimit := Some u.(verificationGasLimit);
     body_preVerificationGas := Some u.(preVerificationGas);
     body_maxFeePerGas := Some u.(maxFeePerGas);
     body_maxPriorityFeePerGas := Some u.(maxPriorityFeePerGas);
     body_signature := Some u.(signature);
     body_paymasterAndData := Some u.(paymasterAndData) |}.

(** [class OpStatus(BaseModel)].  The receipt is kept as its JSON document:
    the code parses the stored text with [json.loads] and the framework
    serialises the result again. *)
Record OpStatus : Type := {
  os_op_hash : string;
  os_status : string;
  os_receipt : option string
}.

(** ** The table [operations] *)

(** [(op_hash TEXT PRIMARY KEY, user_op TEXT, status TEXT, receipt TEXT,
     created_at INTEGER)] *)
Record row : Type := {
  op_hash : string;
  user_op : string;
  status : string;
  receipt : option string;
  created_at : Z
}.

(** Rows in insertion order. *)
Definition table : Type := list row.

Definition pending : string := "pending".
Definition completed : string := "completed".
Definition failed : string := "failed".

Definition has_key (h : string) (r : row) : bool := String.eqb r.(op_hash) h.

(** [INSERT INTO operations (op_hash, user_op, status, created_at)
     VALUES (?, ?, ?, ?)]: the primary key rejects a second row with the
    same [op_hash]; the column left out is NULL. *)
Definition sql_insert (t : table) (h u s : string) (c : Z) : py table :=
  if existsb (has_key h) t then Raise IntegrityError
  else Return (t ++ [ {| op_hash := h; user_op := u; status := s;
                         receipt := None; created_at := c |} ])%list.

(** [UPDATE operations SET status = ?, receipt = ? WHERE op_hash = ?] *)
Definition sql_update_status_receipt (t : table) (s r h : string) : py table :=
  Return (map (fun x => if has_key h x
                        then {| op_hash := x.(op_hash); user_op := x.(user_op);
                                status := s; receipt := Some r;
                                created_at := x.(created_at) |}
                        else x) t).

(** [UPDATE operations SET status = ? WHERE op_hash = ?] *)
Definition sql_update_status (t : table) (s h : string) : py table :=
  Return (map (fun x => if has_key h x
                        then {| op_hash := x.(op_hash); user_op := x.(user_op);
                                status := s; receipt := x.(receipt);
                                created_at := x.(created_at) |}
                        else x) t).

(** [SELECT status, receipt FROM operations WHERE op_hash = ?], [fetchone()] *)
Definition sql_select_status_receipt (t : table) (h : string)
  : option (string * option string) :=
  match find (has_key h) t with
  | Some r => Some (r.(status), r.(receipt))
  | None => None
  end.

(** [SELECT op_hash, status, receipt FROM operations], [fetchall()] *)
Definition sql_select_all (t : table) : list (string * string * option string) :=
  map (fun r => (r.(op_hash), r.(status), r.(receipt))) t.

(** ** The chain *)

Definition entry_point_address : string :=
  "0x5FF137D4b0FDCD49DcA30c7CF57E578a026d2789".

(** The dictionary [tx] of [process_op]. *)
Record transaction : Type := {
  tx_to : string;
  tx_data : string;
  tx_gas : Z;
  tx_maxFeePerGas : Z;
  tx_maxPriorityFeePerGas : Z;
  tx_nonce : Z
}.

(** What the four calls on [w3] do during one run of [process_op]:
    [w3.eth.get_transaction_count(account.address)],
    [w3.eth.account.sign_transaction(tx, account.key)] followed by
    [.rawTransaction], [w3.eth.send_raw_transaction] and
    [w3.eth.wait_for_transaction_receipt].  A call returns or raises; the
    receipt is a mapping, given by its items. *)
Record gateway : Type := {
  get_transaction_count : py Z;
  sign_transaction : transaction -> py string;
  send_raw_transaction : string -> py string;
  wait_for_transaction_receipt : string -> py (list (string * pyval))
}.

(** ** The endpoints and the worker *)

(** [encode_user_op(op)] *)
Definition encode_user_op (op : list (string * pyval)) : string := "0x".

(** [json.loads(r) if r else None]: NULL and the empty text give [None].
    Any other text is handed to [json.loads]; the texts the service stores
    are outputs of [json.dumps] on a [dict], which parse back to that
    [dict], and a failing parse is not modelled. *)
Definition loads_if (r : option string) : option string :=
  match r with
  | Some (String c s) => Some (String c s)
  | _ => None
  end.

(** The transaction of lines 63-70; [op['maxFeePerGas']] is the field of the
    model, [op] being [user_op.dict()]. *)
Definition build_tx (user_op : UserOperation) (count : Z) : transaction :=
  let op := UserOperation_dict user_op in
  {| tx_to := entry_point_address;
     tx_data := encode_user_op op;
     tx_gas := 1000000;
     tx_maxFeePerGas := user_op.(maxFeePerGas);
     tx_maxPriorityFeePerGas := user_op.(maxPriorityFeePerGas);
     tx_nonce := count |}.

(** The body of the [try] block without its last statement: what is written
    into the [receipt] column when every call returns. *)
Definition submit_to_chain (user_op : UserOperation) (w3 : gateway) : py string :=
  count <- w3.(get_transaction_count) ;;
  let tx := build_tx user_op count in
  signed_tx <- w3.(sign_transaction) tx ;;
  tx_hash <- w3.(send_raw_transaction) signed_tx ;;
  receipt <- w3.(wait_for_transaction_receipt) tx_hash ;;
  Json.dumps (PyDict receipt).

(** [process_op(op_hash, user_op)]: the [try] block ends with the [UPDATE]
    that completes the row; [except Exception] runs the [UPDATE] that fails
    it. *)
Definition process_op (t : table) (h : string) (user_op : UserOperation)
  (w3 : gateway) : py table :=
  try_except
    (text <- submit_to_chain user_op w3 ;;
     sql_update_status_receipt t completed text h)
    (sql_update_status t failed h).

(** [GET /api/status/{op_hash}] *)
Definition get_status (t : table) (h : string) : py OpStatus :=
  match sql_select_status_receipt t h with
  | None => Raise (HTTPException 404 "Operation not found")
  | Some (s, r) =>
      Return {| os_op_hash := h; os_status := s; os_receipt := loads_if r |}
  end.

(** [GET /api/history] *)
Definition get_history (t : table) : list OpStatus :=
  map (fun r => {| os_op_hash := fst (fst r); os_status := snd (fst r);
                   os_receipt := loads_if (snd r) |})
      (sql_select_all t).

(** ** The running service *)

(** The table, and the tasks [asyncio.create_task] has scheduled that have
    not run yet. *)
Record system : Type := {
  db : table;
  tasks : list (string * UserOperation)
}.

(** [init_db()] on a machine without [ops.db]: the table is created empty.
    On a machine that has the file, [CREATE TABLE IF NOT EXISTS] leaves it as
    it is (see [Restart] below). *)
Definition init_db : table := [].

(** The service when it first starts. *)
Definition init : system := {| db := init_db; tasks := [] |}.

(** The handler of [POST /api/submit_op]; [uuid4] is [str(uuid.uuid4())] and
    [time] is [int(time.time())].  When the [INSERT] raises, the handler ends
    there and no task is created. *)
Definition submit_op (s : system) (user_op : UserOperation)
  (uuid4 : string) (time : Z) : py (system * string) :=
  let op_hash := uuid4 in
  text <- Json.dumps (PyDict (UserOperation_dict user_op)) ;;
  db' <- sql_insert s.(db) op_hash text pending time ;;
  Return ({| db := db'; tasks := (s.(tasks) ++ [(op_hash, user_op)])%list |},
          op_hash).

(** [POST /api/submit_op]: the framework validates the body, then calls the
    handler. *)
Definition post_submit_op (s : system) (b : request_body)
  (uuid4 : string) (time : Z) : py (system * string) :=
  user_op <- validate b ;;
  submit_op s user_op uuid4 time.

(** The list without its [k]-th element. *)
Definition remove_nth {A : Type} (k : nat) (l : list A) : list A :=
  (firstn k l ++ skipn (S k) l)%list.

(** What can happen to the service.  The event loop runs scheduled tasks in
    the order of their creation, which is [RunTask 0]; the model lets any
    scheduled task run next.  [process_op] never awaits, so a task runs from
    start to end without another event in between. *)
Inductive event : Type :=
| PostSubmitOp (b : request_body) (uuid4 : string) (time : Z)
| RunTask (k : nat) (w3 : gateway)     (* the loop runs the k-th scheduled task *)
| GetStatus (h : string)
| GetHistory
| Restart.                             (* the process stops and starts again *)

Inductive response : Type :=
| SubmitOpResponse (r : py string)
| TaskRan (h : string)
| Idle
| StatusResponse (r : py OpStatus)
| HistoryResponse (l : list OpStatus)
| Restarted.

(** One event.  A handler that raises leaves the table as it was (its
    statement did not run); a task that has run is no longer scheduled; a
    restart loses the scheduled tasks and keeps the file. *)
Definition step (s : system) (e : event) : system * response :=
  match e with
  | PostSubmitOp b uuid4 time =>
      match post_submit_op s b uuid4 time with
      | Return (s', h) => (s', SubmitOpResponse (Return h))
      | Raise x => (s, SubmitOpResponse (Raise x))
      end
  | RunTask k w3 =>
      match nth_error s.(tasks) k with
      | Some (h, user_op) =>
          let db' := match process_op s.(db) h user_op w3 with
                     | Return t => t
                     | Raise _ => s.(db)
                     end in
          ({| db := db'; tasks := remove_nth k s.(tasks) |}, TaskRan h)
      | None => (s, Idle)
      end
  | GetStatus h => (s, StatusResponse (get_status s.(db) h))
  | GetHistory => (s, HistoryResponse (get_history s.(db)))
  | Restart => ({| db := s.(db); tasks := [] |}, Restarted)
  end.

Fixpoint exec (s : system) (es : list event) : system :=
  match es with
  | [] => s
  | e :: es' => exec (fst (step s e)) es'
  end.

Fixpoint responses (s : system) (es : list event) : list response :=
  match es with
  | [] => []
  | e :: es' => snd (step s e) :: responses (fst (step s e)) es'
  end.

(** The identifiers intake has handed out, oldest first. *)
Fixpoint issued (rs : list response) : list string :=
  match rs with
  | [] => []
  | SubmitOpResponse (Return h) :: rs' => h :: issued rs'
  | _ :: rs' => issued rs'
  end.

(** The identifiers whose task has run, oldest first. *)
Fixpoint ran (rs : list response) : list string :=
  match rs with
  | [] => []
  | TaskRan h :: rs' => h :: ran rs'
  | _ :: rs' => ran rs'
  end.

Definition terminal (s : string) : Prop := s = completed \/ s = failed.

(** ** A small scenario *)

Definition op_A : UserOperation :=
  {| sender := "0xAA"; nonce := 0; initCode := "0x"; callData := "0x";
     callGasLimit := 100000; verificationGasLimit := 100000;
     preVerificationGas := 21000; maxFeePerGas := 30; maxPriorityFeePerGas := 15;
     signature := "0x"; paymasterAndData := "0x" |}.

(** A chain on which everything works and the receipt is plain data. *)
Definition good_chain : gateway :=
  {| get_transaction_count := Return 7%Z;
     sign_transaction := fun _ => Return "0xf86b";
     send_raw_transaction := fun _ => Return "0xabc1";
     wait_for_transaction_receipt := fun _ =>
       Return [("status", PyInt 1); ("gasUsed", PyInt 21000)] |}.

(** A chain that rejects the broadcast. *)
Definition rejecting_chain : gateway :=
  {| get_transaction_count := Return 7%Z;
     sign_transaction := fun _ => Return "0xf86b";
     send_raw_transaction := fun _ => Raise (Web3Error "rejected");
     wait_for_transaction_receipt := fun _ => Return [] |}.

(** A chain on which everything works and the receipt carries a hash as
    bytes. *)
Definition bytes_chain : gateway :=
  {| get_transaction_count := Return 7%Z;
     sign_transaction := fun _ => Return "0xf86b";
     send_raw_transaction := fun _ => Return "0xabc1";
     wait_for_transaction_receipt := fun _ =>
       Return [("transactionHash", PyBytes "h"); ("status", PyInt 1)] |}.

(** The text [json.dumps] returns for a value it can serialise. *)
Definition text_of (v : pyval) : string :=
  match Json.dumps v with
  | Return s => s
  | Raise _ => EmptyString
  end.

(** Three submissions of [op_A]; the first is included, the second is
    rejected by the chain, the third has not been processed yet. *)
Definition demo_events : list event :=
  [ PostSubmitOp (body_of op_A) "X" 1700000000; RunTask 0 good_chain;
    PostSubmitOp (body_of op_A) "Y" 1700000001; RunTask 0 rejecting_chain;
    PostSubmitOp (body_of op_A) "Z" 1700000002 ].

Definition demo_row_X : row :=
  {| op_hash := "X";
     user_op := text_of (PyDict (UserOperation_dict op_A));
     status := "completed";
     receipt := Some (text_of (PyDict [("status", PyInt 1); ("gasUsed", PyInt 21000)]));
     created_at := 1700000000 |}.

Definition demo_row_Y : row :=
  {| op_hash := "Y";
     user_op := text_of (PyDict (UserOperation_dict op_A));
     status := "failed";
     receipt := None;
     created_at := 1700000001 |}.

Definition demo_row_Z : row :=
  {| op_hash := "Z";
     user_op := text_of (PyDict (UserOperation_dict op_A));
     status := "pending";
     receipt := None;
     created_at := 1700000002 |}.


(** An operation that shares only the two fee rates with [op_A]. *)
Definition op_B : UserOperation :=
  {| sender := "0xBB"; nonce := 41; initCode := "0x60"; callData := "0xa9059cbb";
     callGasLimit := 5; verificationGasLimit := 6;
     preVerificationGas := 7; maxFeePerGas := 30; maxPriorityFeePerGas := 15;
     signature := "0x1b"; paymasterAndData := "0xCC" |}.

(** A body without the field [signature]. *)
Definition body_unsigned : request_body :=
  {| body_sender := Some "0xAA"; body_nonce := Some 0%Z;
     body_initCode := Some "0x"; body_callData := Some "0x";
     body_callGasLimit := Some 100000%Z;
     body_verificationGasLimit := Some 100000%Z;
     body_preVerificationGas := Some 21000%Z;
     body_maxFeePerGas := Some 30%Z;
     body_maxPriorityFeePerGas := Some 15%Z;
     body_signature := None;
     body_paymasterAndData := Some "0x" |}.

(** ** Notions used in the statements *)

(** An [UPDATE ... WHERE op_hash = h] that applies [f] to the rows it finds. *)
Definition set_where (h : string) (f : row -> row) (t : table) : table :=
  map (fun x => if has_key h x then f x else x) t.

Definition with_status_receipt (s r : string) (x : row) : row :=
  {| op_hash := x.(op_hash); user_op := x.(user_op); status := s;
     receipt := Some r; created_at := x.(created_at) |}.

Definition with_status (s : string) (x : row) : row :=
  {| op_hash := x.(op_hash); user_op := x.(user_op); status := s;
     receipt := x.(receipt); created_at := x.(created_at) |}.

(** The three shapes a row can have. *)
Definition row_ok (r : row) : Prop :=
  (r.(status) = pending /\ r.(receipt) = None)
  \/ (r.(status) = completed
      /\ exists rest, r.(receipt) = Some (String "{" rest))
  \/ (r.(status) = failed /\ r.(receipt) = None).

(** What holds of the service at all times. *)
Record consistent (s : system) : Prop := {
  keys_unique : NoDup (map op_hash s.(db));
  rows_ok : Forall row_ok s.(db);
  tasks_unique : NoDup (map fst s.(tasks));
  tasks_known : forall h u, In (h, u) s.(tasks) -> In h (map op_hash s.(db));
  tasks_pending : forall h u r,
      In (h, u) s.(tasks) -> In r s.(db) -> r.(op_hash) = h -> r.(status) = pending
}.

(** The statements of the [try] block of [process_op] that can raise, in
    program order, and what the block as a whole amounts to: the first
    exception, or the text for the [receipt] column. *)
Inductive try_block (u : UserOperation) (w3 : gateway) : py string -> Prop :=
| count_raises e :
    w3.(get_transaction_count) = Raise e ->
    try_block u w3 (Raise e)
| sign_raises count e :
    w3.(get_transaction_count) = Return count ->
    w3.(sign_transaction) (build_tx u count) = Raise e ->
    try_block u w3 (Raise e)
| send_raises count signed_tx e :
    w3.(get_transaction_count) = Return count ->
    w3.(sign_transaction) (build_tx u count) = Return signed_tx ->
    w3.(send_raw_transaction) signed_tx = Raise e ->
    try_block u w3 (Raise e)
| wait_raises count signed_tx tx_hash e :
    w3.(get_transaction_count) = Return count ->
    w3.(sign_transaction) (build_tx u count) = Return signed_tx ->
    w3.(send_raw_transaction) signed_tx = Return tx_hash ->
    w3.(wait_for_transaction_receipt) tx_hash = Raise e ->
    try_block u w3 (Raise e)
| dumps_raises count signed_tx tx_hash receipt e :
    w3.(get_transaction_count) = Return count ->
    w3.(sign_transaction) (build_tx u count) = Return signed_tx ->
    w3.(send_raw_transaction) signed_tx = Return tx_hash ->
    w3.(wait_for_transaction_receipt) tx_hash = Return receipt ->
    Json.dumps (PyDict receipt) = Raise e ->
    try_block u w3 (Raise e)
| all_return count signed_tx tx_hash receipt text :
    w3.(get_transaction_count) = Return count ->
    w3.(sign_transaction) (build_tx u count) = Return signed_tx ->
    w3.(send_raw_transaction) signed_tx = Return tx_hash ->
    w3.(wait_for_transaction_receipt) tx_hash = Return receipt ->
    Json.dumps (PyDict receipt) = Return text ->
    try_block u w3 (Return text).

(** The five calls the transaction goes through all return. *)
Definition chain_calls_return (u : UserOperation) (w3 : gateway) : Prop :=
  exists count signed_tx tx_hash receipt,
    w3.(get_transaction_count) = Return count
    /\ w3.(sign_transaction) (build_tx u count) = Return signed_tx
    /\ w3.(send_raw_transaction) signed_tx = Return tx_hash
    /\ w3.(wait_for_transaction_receipt) tx_hash = Return receipt.

(** A body with every field of the model. *)
Definition complete (b : request_body) : Prop :=
  b.(body_sender) <> None /\ b.(body_nonce) <> None /\ b.(body_initCode) <> None
  /\ b.(body_callData) <> None /\ b.(body_callGasLimit) <> None
  /\ b.(body_verificationGasLimit) <> None /\ b.(body_preVerificationGas) <> None
  /\ b.(body_maxFeePerGas) <> None /\ b.(body_maxPriorityFeePerGas) <> None
  /\ b.(body_signature) <> None /\ b.(body_paymasterAndData) <> None.

(** The columns that intake writes and nothing else touches. *)
Definition snapshot (r : row) : string * string * Z :=
  (r.(op_hash), r.(user_op), r.(created_at)).

(** A run during which the process is never restarted. *)
Definition no_restart (es : list event) : bool :=
  forallb (fun e => match e with Restart => false | _ => true end) es.

(** The entry the queries show for a row. *)
Definition entry_of (r : row) : OpStatus :=
  {| os_op_hash := r.(op_hash); os_status := r.(status);
     os_receipt := loads_if r.(receipt) |}.

(** ** The body as it arrives

    The framework parses the body into a JSON object and hands every
    declared field to the validator of its declared type.  The validators are
    the library's; they are taken as they come: what each makes of a JSON
    value, and [None] when it refuses the value. *)

Record validators : Type := {
  str_validator : pyval -> option string;
  int_validator : pyval -> option Z
}.

(** [body.get(key)] on the parsed object. *)
Fixpoint json_get (body : list (string * pyval)) (key : string) : option pyval :=
  match body with
  | [] => None
  | (k, v) :: rest => if String.eqb k key then Some v else json_get rest key
  end.

(** A declared field after validation: absent from the object or refused by
    its validator, or the value the validator returns. *)
Definition validated {A : Type} (validator : pyval -> option A)
  (body : list (string * pyval)) (key : string) : option A :=
  match json_get body key with
  | Some v => validator v
  | None => None
  end.

(** The body after the type check.  Keys the model does not declare are
    ignored. *)
Definition typed_body (V : validators) (body : list (string * pyval)) : request_body :=
  {| body_sender := validated V.(str_validator) body "sender";
     body_nonce := validated V.(int_validator) body "nonce";
     body_initCode := validated V.(str_validator) body "initCode";
     body_callData := validated V.(str_validator) body "callData";
     body_callGasLimit := validated V.(int_validator) body "callGasLimit";
     body_verificationGasLimit :=
       validated V.(int_validator) body "verificationGasLimit";
     body_preVerificationGas := validated V.(int_validator) body "preVerificationGas";
     body_maxFeePerGas := validated V.(int_validator) body "maxFeePerGas";
     body_maxPriorityFeePerGas :=
       validated V.(int_validator) body "maxPriorityFeePerGas";
     body_signature := validated V.(str_validator) body "signature";
     body_paymasterAndData := validated V.(str_validator) body "paymasterAndData" |}.

(** The declared type of a field. *)
Inductive declared : Type :=
| Str
| Int.

(** The fields of [UserOperation]. *)
Definition declared_fields : list (string * declared) :=
  [ ("sender", Str); ("nonce", Int); ("initCode", Str); ("callData", Str);
    ("callGasLimit", Int); ("verificationGasLimit", Int);
    ("preVerificationGas", Int); ("maxFeePerGas", Int);
    ("maxPriorityFeePerGas", Int); ("signature", Str);
    ("paymasterAndData", Str) ].

Definition accepts (V : validators) (d : declared) (v : pyval) : bool :=
  match d with
  | Str => match V.(str_validator) v with Some _ => true | None => false end
  | Int => match V.(int_validator) v with Some _ => true | None => false end
  end.

(** The field is in the object with a value its declared type accepts. *)
Definition field_passes (V : validators) (body : list (string * pyval))
  (f : string * declared) : bool :=
  match json_get body (fst f) with
  | Some v => accepts V (snd f) v
  | None => false
  end.

(** The object passes validation: every declared field does. *)
Definition passes (V : validators) (body : list (string * pyval)) : bool :=
  forallb (field_passes V body) declared_fields.

(** Validators that accept the values of the declared type and nothing else;
    for examples. *)
Definition exact_validators : validators :=
  {| str_validator := fun v => match v with PyStr s => Some s | _ => None end;
     int_validator := fun v => match v with PyInt n => Some n | _ => None end |}.

(** The JSON object of [op_A] with the text abc for the nonce, and with null
    for the first gas limit. *)
Definition body_text_nonce : list (string * pyval) :=
  [ ("sender", PyStr "0xAA"); ("nonce", PyStr "abc"); ("initCode", PyStr "0x");
    ("callData", PyStr "0x"); ("callGasLimit", PyInt 100000);
    ("verificationGasLimit", PyInt 100000); ("preVerificationGas", PyInt 21000);
    ("maxFeePerGas", PyInt 30); ("maxPriorityFeePerGas", PyInt 15);
    ("signature", PyStr "0x"); ("paymasterAndData", PyStr "0x") ].

Definition body_null_gas : list (string * pyval) :=
  [ ("sender", PyStr "0xAA"); ("nonce", PyInt 0); ("initCode", PyStr "0x");
    ("callData", PyStr "0x"); ("callGasLimit", PyNone);
    ("verificationGasLimit", PyInt 100000); ("preVerificationGas", PyInt 21000);
    ("maxFeePerGas", PyInt 30); ("maxPriorityFeePerGas", PyInt 15);
    ("signature", PyStr "0x"); ("paymasterAndData", PyStr "0x") ].

(** ** The flash-loan simulator, [src/FlashLoanSimulator/simulator.py]

    The functions that work on integers and on transactions.  The estimate
    of [calculate_opportunity] and the statistics of [simulate_cycles] are
    floating-point computations and are left out. *)

Module Simulator.

(** What a call can raise: [web3.exceptions.ContractLogicError] (or a
    subclass of it), or anything else. *)
Inductive error : Type :=
| ContractLogicError
| OtherError (what : string).

Inductive result (A : Type) : Type :=
| Done (a : A)
| Fail (e : error).
Arguments Done {A} a.
Arguments Fail {A} e.

(** A parameter of a contract function. *)
Inductive arg : Type :=
| Addr (a : string)
| Uint (n : Z).

(** One call of [send_tx]: the contract, the function, its parameters, and
    the fields [send_tx] puts into the transaction besides the sender and the
    nonce. *)
Record sent : Type := {
  contract : string;
  function_name : string;
  params : list arg;
  value : Z;
  gas : Z;
  gasPrice : Z
}.

(** The [ArbitrageExecuted] events that [process_receipt] finds in a
    receipt, each given by its [args]. *)
Record tx_receipt : Type := {
  arbitrage_events : list (list (string * Z))
}.

(** [addresses.json] and the relayer account. *)
Record config : Type := {
  arbitrageContract : string;
  tokenA : string;
  tokenB : string;
  account_address : string
}.

(** What the chain answers to the [n]-th call of [send_tx] of a run: the
    library calls inside [send_tx] (building, signing, broadcasting, waiting)
    return a receipt or one of them raises. *)
Definition chain : Type := nat -> sent -> result tx_receipt.

(** A computation that calls [send_tx]: it is given the calls made so far
    and gives back its result and the calls made by then. *)
Definition run (A : Type) : Type := list sent -> result A * list sent.

Definition ret {A : Type} (a : A) : run A := fun log => (Done a, log).

Definition seq {A B : Type} (m : run A) (k : A -> run B) : run B :=
  fun log =>
    match m log with
    | (Done a, log') => k a log'
    | (Fail e, log') => (Fail e, log')
    end.

(** [w3.to_wei('5', 'gwei')] *)
Definition five_gwei : Z := 5 * 10 ^ 9.

(** [send_tx(contract, function_name, params, value=0)] *)
Definition send_tx (w3 : chain) (c : string) (f : string) (p : list arg) (v : Z)
  : run tx_receipt :=
  fun log =>
    let tx := {| contract := c; function_name := f; params := p; value := v;
                 gas := 2000000; gasPrice := five_gwei |} in
    (w3 (List.length log) tx, log ++ [tx])%list.

Definition amount_b_delta : Z := 100 * 10 ^ 18.

(** The default of [amount_a]. *)
Definition default_amount_a : Z := 1000 * 10 ^ 18.

(** [adjust_liquidity(dex_router, add, amount_a)]; [randint] is what
    [random.randint(900, 1100)] returns and [time] what [int(time.time())]
    returns in the branch taken. *)
Definition adjust_liquidity (cfg : config) (w3 : chain) (dex_router : string)
  (add : bool) (amount_a : Z) (randint time : Z) : run tx_receipt :=
  seq (send_tx w3 cfg.(tokenA) "approve"
         [Addr dex_router; Uint (amount_a + amount_b_delta)%Z] 0%Z) (fun _ =>
  seq (send_tx w3 cfg.(tokenB) "approve"
         [Addr dex_router; Uint (amount_a + amount_b_delta)%Z] 0%Z) (fun _ =>
  if add then
    let amount_b := (randint * 10 ^ 18)%Z in
    send_tx w3 dex_router "addLiquidity"
      [Addr cfg.(tokenA); Addr cfg.(tokenB); Uint amount_a; Uint amount_b;
       Uint 0; Uint 0; Addr cfg.(account_address); Uint (time + 600)%Z] 0%Z
  else
    let lp_balance := (100 * 10 ^ 18)%Z in
    send_tx w3 dex_router "removeLiquidity"
      [Addr cfg.(tokenA); Addr cfg.(tokenB); Uint lp_balance;
       Uint 0; Uint 0; Addr cfg.(account_address); Uint (time + 600)%Z] 0%Z)).

(** The fourth component of what [execute_arbitrage] returns: [0] or
    [-0.05]. *)
Inductive slippage : Type :=
| NoSlippage
| Penalty.

(** [event[key]] *)
Fixpoint getitem (event : list (string * Z)) (key : string) : result Z :=
  match event with
  | [] => Fail (OtherError "KeyError")
  | (k, v) :: rest => if String.eqb k key then Done v else getitem rest key
  end.

(** [execute_arbitrage(loan_amount, min_profit)] *)
Definition execute_arbitrage (cfg : config) (w3 : chain) (loan_amount min_profit : Z)
  : run (bool * Z * Z * slippage) :=
  fun log =>
    match send_tx w3 cfg.(arbitrageContract) "startArbitrage"
            [Uint loan_amount; Uint min_profit] 0%Z log with
    | (Done receipt, log') =>
        match receipt.(arbitrage_events) with
        | event :: _ =>
            match getitem event "profit" with
            | Done profit =>
                match getitem event "gasUsed" with
                | Done gas_used => (Done (true, profit, gas_used, NoSlippage), log')
                | Fail e => (Fail e, log')
                end
            | Fail e => (Fail e, log')
            end
        | [] => (Done (false, 0%Z, 0%Z, NoSlippage), log')
        end
    | (Fail ContractLogicError, log') => (Done (false, 0%Z, 0%Z, Penalty), log')
    | (Fail e, log') => (Fail e, log')
    end.

(** The transactions of [adjust_liquidity]: an approval, and the change of
    liquidity. *)
Definition approve_tx (token dex_router : string) (amount_a : Z) : sent :=
  {| contract := token; function_name := "approve";
     params := [Addr dex_router; Uint (amount_a + amount_b_delta)];
     value := 0; gas := 2000000; gasPrice := five_gwei |}.

Definition liquidity_tx (cfg : config) (dex_router : string) (add : bool)
  (amount_a randint time : Z) : sent :=
  {| contract := dex_router;
     function_name := if add then "addLiquidity" else "removeLiquidity";
     params := if add
               then [Addr cfg.(tokenA); Addr cfg.(tokenB); Uint amount_a;
                     Uint (randint * 10 ^ 18); Uint 0; Uint 0;
                     Addr cfg.(account_address); Uint (time + 600)]
               else [Addr cfg.(tokenA); Addr cfg.(tokenB); Uint (100 * 10 ^ 18);
                     Uint 0; Uint 0; Addr cfg.(account_address); Uint (time + 600)];
     value := 0; gas := 2000000; gasPrice := five_gwei |}.

(** The transaction of [execute_arbitrage]. *)
Definition arbitrage_tx (cfg : config) (loan_amount min_profit : Z) : sent :=
  {| contract := cfg.(arbitrageContract); function_name := "startArbitrage";
     params := [Uint loan_amount; Uint min_profit];
     value := 0; gas := 2000000; gasPrice := five_gwei |}.

(** A configuration and two chains for examples: on the first every
    transaction is mined and the arbitrage emits one event; on the second the
    second approval reverts. *)
Definition demo_config : config :=
  {| arbitrageContract := "0xA0"; tokenA := "0xA1"; tokenB := "0xA2";
     account_address := "0xA3" |}.

Definition mined_chain : chain :=
  fun _ tx =>
    if String.eqb tx.(function_name) "startArbitrage"
    then Done {| arbitrage_events := [[("profit", 7%Z); ("gasUsed", 90000%Z)]] |}
    else Done {| arbitrage_events := [] |}.

Definition reverting_chain : chain :=
  fun n _ =>
    if Nat.eqb n 1 then Fail ContractLogicError
    else Done {| arbitrage_events := [] |}.

End Simulator.

(** * Properties *)

(** ** The model at work *)

Example dumps_example :
  Json.dumps (PyDict [("status", PyInt 1); ("logs", PyList []); ("ok", PyBool true)])
  = Return (String "{" (String Json.quote ("status" ++ String Json.quote
      (": 1, " ++ String Json.quote ("logs" ++ String Json.quote
      (": [], " ++ String Json.quote ("ok" ++ String Json.quote ": true}"))))))).
Proof. reflexivity. Qed.

Example dumps_bytes :
  Json.dumps (PyDict [("transactionHash", PyBytes "h")]) = Raise TypeError.
Proof. reflexivity. Qed.

Example demo_table :
  (exec init demo_events).(db) = [demo_row_X; demo_row_Y; demo_row_Z]
  /\ (exec init demo_events).(tasks) = [("Z", op_A)].
Proof. split; reflexivity. Qed.

Example ill_typed_bodies :
  passes exact_validators body_text_nonce = false
  /\ passes exact_validators body_null_gas = false
  /\ passes exact_validators (UserOperation_dict op_A) = true
  /\ passes exact_validators (("memo", PyStr "hello") :: UserOperation_dict op_A) = true
  /\ validate (typed_body exact_validators body_null_gas) = Raise RequestValidationError.
Proof. repeat split. Qed.

Example scenario_A :
  let s1 := exec init [PostSubmitOp (body_of op_A) "X" 1700000000] in
  let s2 := exec s1 [RunTask 0 good_chain] in
  (exists r, get_status s1.(db) "X"
             = Return {| os_op_hash := "X"; os_status := "pending"; os_receipt := None |}
          /\ get_status s2.(db) "X"
             = Return {| os_op_hash := "X"; os_status := "completed"; os_receipt := Some r |}).
Proof. eexists. split; vm_compute; reflexivity. Qed.

Example scenario_B :
  let s2 := exec init [PostSubmitOp (body_of op_A) "X" 1700000000;
                       RunTask 0 rejecting_chain] in
  get_status s2.(db) "X"
  = Return {| os_op_hash := "X"; os_status := "failed"; os_receipt := None |}.
Proof. reflexivity. Qed.

(** ** Lists *)

Lemma remove_nth_incl {A : Type} (k : nat) (l : list A) (x : A) :
  In x (remove_nth k l) -> In x l.
Proof.
  unfold remove_nth. intros H. apply in_app_or in H.
  rewrite <- (firstn_skipn k l). apply in_or_app.
  destruct H as [H | H]; [left; exact H | right].
  rewrite <- (firstn_skipn 1 (skipn k l)). apply in_or_app. right.
  rewrite skipn_skipn. exact H.
Qed.

Lemma remove_nth_map {A B : Type} (f : A -> B) (k : nat) (l : list A) :
  map f (remove_nth k l) = remove_nth k (map f l).
Proof.
  unfold remove_nth. rewrite map_app, firstn_map, skipn_map. reflexivity.
Qed.

Lemma remove_nth_NoDup {A : Type} (k : nat) (l : list A) :
  NoDup l -> NoDup (remove_nth k l).
Proof.
  revert k. induction l as [| a l IH]; intros k H.
  - unfold remove_nth. rewrite firstn_nil, skipn_nil. constructor.
  - inversion H as [| ? ? Hna Hl]; subst. destruct k as [| k].
    + exact Hl.
    + change (remove_nth (S k) (a :: l)) with (a :: remove_nth k l).
      constructor; [| apply IH; exact Hl].
      intros Hin. apply Hna. eapply remove_nth_incl. exact Hin.
Qed.

Lemma remove_nth_gone {A : Type} (k : nat) (l : list A) (x : A) :
  NoDup l -> nth_error l k = Some x -> ~ In x (remove_nth k l).
Proof.
  revert k. induction l as [| a l IH]; intros k H Hk.
  - destruct k; discriminate.
  - inversion H as [| ? ? Hna Hl]; subst. destruct k as [| k].
    + injection Hk as ->. exact Hna.
    + change (remove_nth (S k) (a :: l)) with (a :: remove_nth k l).
      simpl in Hk. intros [-> | Hin].
      * apply Hna. eapply nth_error_In. exact Hk.
      * exact (IH k Hl Hk Hin).
Qed.

(** ** The table *)

Lemma has_key_true (h : string) (r : row) : has_key h r = true <-> r.(op_hash) = h.
Proof. unfold has_key. apply String.eqb_eq. Qed.

Lemma has_key_false (h : string) (r : row) : has_key h r = false <-> r.(op_hash) <> h.
Proof. unfold has_key. apply String.eqb_neq. Qed.

Lemma existsb_has_key (h : string) (t : table) :
  existsb (has_key h) t = true <-> In h (map op_hash t).
Proof.
  rewrite existsb_exists, in_map_iff. split.
  - intros [r [Hin Hk]]. exists r. split; [apply has_key_true; exact Hk | exact Hin].
  - intros [r [Hk Hin]]. exists r. split; [exact Hin | apply has_key_true; exact Hk].
Qed.

Lemma sql_update_status_receipt_eq (t : table) (s r h : string) :
  sql_update_status_receipt t s r h = Return (set_where h (with_status_receipt s r) t).
Proof. reflexivity. Qed.

Lemma sql_update_status_eq (t : table) (s h : string) :
  sql_update_status t s h = Return (set_where h (with_status s) t).
Proof. reflexivity. Qed.

Section SetWhere.

Variable h : string.
Variable f : row -> row.
Hypothesis f_key : forall x, (f x).(op_hash) = x.(op_hash).

Lemma set_where_keys (t : table) : map op_hash (set_where h f t) = map op_hash t.
Proof.
  unfold set_where. rewrite map_map. apply map_ext. intros x.
  destruct (has_key h x); [apply f_key | reflexivity].
Qed.

Lemma set_where_in (t : table) (r : row) :
  In r (set_where h f t) ->
  exists x, In x t /\ ((x.(op_hash) = h /\ r = f x) \/ (x.(op_hash) <> h /\ r = x)).
Proof.
  unfold set_where. rewrite in_map_iff. intros [x [Hr Hin]]. exists x.
  split; [exact Hin |]. destruct (has_key h x) eqn:E.
  - left. split; [apply has_key_true; exact E | symmetry; exact Hr].
  - right. split; [apply has_key_false; exact E | symmetry; exact Hr].
Qed.

Lemma set_where_find (t : table) (h' : string) :
  find (has_key h') (set_where h f t)
  = match find (has_key h') t with
    | Some x => Some (if has_key h x then f x else x)
    | None => None
    end.
Proof.
  induction t as [| x t IH]; [reflexivity |]. simpl.
  assert (E : has_key h' (if has_key h x then f x else x) = has_key h' x).
  { unfold has_key at 1 3. destruct (has_key h x); [rewrite f_key |]; reflexivity. }
  rewrite E. destruct (has_key h' x); [reflexivity | exact IH].
Qed.

End SetWhere.

Lemma find_has_key (t : table) (h : string) (r : row) :
  find (has_key h) t = Some r -> In r t /\ r.(op_hash) = h.
Proof.
  intros H. apply find_some in H. destruct H as [Hin Hk].
  split; [exact Hin | apply has_key_true; exact Hk].
Qed.

Lemma find_has_key_none (t : table) (h : string) :
  find (has_key h) t = None <-> ~ In h (map op_hash t).
Proof.
  split.
  - intros H Hin. apply in_map_iff in Hin. destruct Hin as [r [Hk Hin]].
    apply (find_none _ _ H) in Hin. apply has_key_true in Hk. congruence.
  - intros H. destruct (find (has_key h) t) as [r |] eqn:E; [| reflexivity].
    exfalso. apply H. apply find_has_key in E. destruct E as [Hin Hk].
    rewrite <- Hk. apply in_map. exact Hin.
Qed.

Lemma find_has_key_app (t : table) (h : string) (r : row) :
  find (has_key h) (t ++ [r])
  = match find (has_key h) t with
    | Some x => Some x
    | None => if has_key h r then Some r else None
    end.
Proof.
  induction t as [| x t IH]; simpl.
  - reflexivity.
  - destruct (has_key h x); [reflexivity | exact IH].
Qed.

(** ** Serialisation *)

Lemma dumps_dict_brace (items : list (string * pyval)) (text : string) :
  Json.dumps (PyDict items) = Return text -> exists rest, text = String "{" rest.
Proof.
  simpl. match goal with |- bind ?m _ = _ -> _ => destruct m as [parts | e] end; simpl.
  - intros H. injection H as <-. eexists. reflexivity.
  - discriminate.
Qed.

Lemma dumps_user_op (u : UserOperation) :
  exists text, Json.dumps (PyDict (UserOperation_dict u)) = Return text.
Proof. eexists. reflexivity. Qed.

(** ** The worker, case by case *)

Lemma process_op_cases (t : table) (h : string) (u : UserOperation) (w3 : gateway) :
  (exists text rest,
      submit_to_chain u w3 = Return text /\ text = String "{" rest
      /\ process_op t h u w3
         = Return (set_where h (with_status_receipt completed text) t))
  \/ (exists e,
      submit_to_chain u w3 = Raise e
      /\ process_op t h u w3 = Return (set_where h (with_status failed) t)).
Proof.
  unfold process_op. destruct (submit_to_chain u w3) as [text | e] eqn:E.
  - left. assert (B : exists rest, text = String "{" rest).
    { unfold submit_to_chain in E.
      destruct (get_transaction_count w3) as [c |]; [simpl in E | discriminate].
      destruct (sign_transaction w3 _) as [sg |]; [simpl in E | discriminate].
      destruct (send_raw_transaction w3 sg) as [th |]; [simpl in E | discriminate].
      destruct (wait_for_transaction_receipt w3 th) as [rc |]; [| discriminate].
      eapply dumps_dict_brace. exact E. }
    destruct B as [rest B]. exists text, rest.
    split; [reflexivity | split; [exact B | reflexivity]].
  - right. exists e. split; reflexivity.
Qed.

Lemma process_op_returns (t : table) (h : string) (u : UserOperation) (w3 : gateway) :
  exists t', process_op t h u w3 = Return t'.
Proof.
  destruct (process_op_cases t h u w3) as [[text [rest [_ [_ H]]]] | [e [_ H]]];
    eexists; exact H.
Qed.

(** ** Intake, case by case *)

Lemma submit_op_cases (s : system) (u : UserOperation) (uuid4 : string) (time : Z) :
  exists text, Json.dumps (PyDict (UserOperation_dict u)) = Return text /\
  ((In uuid4 (map op_hash s.(db)) /\ submit_op s u uuid4 time = Raise IntegrityError)
   \/ (~ In uuid4 (map op_hash s.(db))
       /\ submit_op s u uuid4 time
          = Return ({| db := (s.(db) ++ [ {| op_hash := uuid4; user_op := text;
                                             status := pending; receipt := None;
                                             created_at := time |} ])%list;
                       tasks := (s.(tasks) ++ [(uuid4, u)])%list |}, uuid4))).
Proof.
  destruct (dumps_user_op u) as [text Ht]. exists text. split; [exact Ht |].
  unfold submit_op. rewrite Ht. simpl. unfold sql_insert.
  destruct (existsb (has_key uuid4) (db s)) eqn:E.
  - left. split; [apply existsb_has_key; exact E | reflexivity].
  - right. split; [| reflexivity]. intros H. apply existsb_has_key in H. congruence.
Qed.

Lemma validate_body_of (u : UserOperation) : validate (body_of u) = Return u.
Proof. destruct u. reflexivity. Qed.

Lemma validate_cases (b : request_body) :
  (complete b /\ exists u, validate b = Return u /\ b = body_of u)
  \/ (~ complete b /\ validate b = Raise RequestValidationError).
Proof.
  destruct b as [[a1 |] [a2 |] [a3 |] [a4 |] [a5 |] [a6 |] [a7 |] [a8 |] [a9 |]
                 [a10 |] [a11 |]];
    try (right; split; [unfold complete; simpl; tauto | reflexivity]).
  left. split.
  - unfold complete. simpl. repeat split; discriminate.
  - eexists. split; reflexivity.
Qed.

(** ** One step, case by case *)

Lemma NoDup_snoc {A : Type} (l : list A) (a : A) :
  NoDup l -> ~ In a l -> NoDup (l ++ [a]).
Proof.
  intros Hl Ha. apply NoDup_app.
  - exact Hl.
  - constructor; [intros [] | constructor].
  - intros x Hx [<- | []]. exact (Ha Hx).
Qed.

Lemma step_post_cases (s : system) (b : request_body) (uuid4 : string) (time : Z) :
  (~ complete b
   /\ step s (PostSubmitOp b uuid4 time)
      = (s, SubmitOpResponse (Raise RequestValidationError)))
  \/ (complete b /\ In uuid4 (map op_hash s.(db))
      /\ step s (PostSubmitOp b uuid4 time)
         = (s, SubmitOpResponse (Raise IntegrityError)))
  \/ (exists u text,
         b = body_of u
         /\ Json.dumps (PyDict (UserOperation_dict u)) = Return text
         /\ ~ In uuid4 (map op_hash s.(db))
         /\ step s (PostSubmitOp b uuid4 time)
            = ({| db := (s.(db) ++ [ {| op_hash := uuid4; user_op := text;
                                        status := pending; receipt := None;
                                        created_at := time |} ])%list;
                  tasks := (s.(tasks) ++ [(uuid4, u)])%list |},
               SubmitOpResponse (Return uuid4))).
Proof.
  unfold step, post_submit_op.
  destruct (validate_cases b) as [[Hc [u [Hv Hb]]] | [Hc Hv]]; rewrite Hv; simpl.
  - destruct (submit_op_cases s u uuid4 time) as [text [Ht [[Hin H] | [Hin H]]]];
      rewrite H.
    + right. left. split; [exact Hc | split; [exact Hin | reflexivity]].
    + right. right. exists u, text.
      split; [exact Hb | split; [exact Ht | split; [exact Hin | reflexivity]]].
  - left. split; [exact Hc | reflexivity].
Qed.

Lemma step_run_cases (s : system) (k : nat) (w3 : gateway) :
  (nth_error s.(tasks) k = None /\ step s (RunTask k w3) = (s, Idle))
  \/ (exists h u f,
         nth_error s.(tasks) k = Some (h, u)
         /\ ((exists text rest,
                 submit_to_chain u w3 = Return text /\ text = String "{" rest
                 /\ f = with_status_receipt completed text)
             \/ (exists e, submit_to_chain u w3 = Raise e /\ f = with_status failed))
         /\ step s (RunTask k w3)
            = ({| db := set_where h f s.(db); tasks := remove_nth k s.(tasks) |},
               TaskRan h)).
Proof.
  unfold step. destruct (nth_error (tasks s) k) as [[h u] |] eqn:E.
  - right.
    destruct (process_op_cases s.(db) h u w3)
      as [[text [rest [H1 [H2 H3]]]] | [e [H1 H3]]]; rewrite H3.
    + exists h, u, (with_status_receipt completed text).
      split; [reflexivity |]. split; [| reflexivity].
      left. exists text, rest. repeat split; assumption.
    + exists h, u, (with_status failed).
      split; [reflexivity |]. split; [| reflexivity].
      right. exists e. split; [assumption | reflexivity].
  - left. split; reflexivity.
Qed.

Lemma exec_app (s : system) (es es' : list event) :
  exec s (es ++ es') = exec (exec s es) es'.
Proof. revert s. induction es as [| e es IH]; intros s; simpl; [reflexivity | apply IH]. Qed.

Lemma responses_app (s : system) (es es' : list event) :
  responses s (es ++ es') = (responses s es ++ responses (exec s es) es')%list.
Proof.
  revert s. induction es as [| e es IH]; intros s; simpl; [reflexivity |].
  rewrite IH. reflexivity.
Qed.

Lemma issued_app (rs rs' : list response) :
  issued (rs ++ rs') = (issued rs ++ issued rs')%list.
Proof.
  induction rs as [| r rs IH]; [reflexivity |].
  destruct r as [[h | x] | | | | |]; simpl; rewrite IH; reflexivity.
Qed.

Lemma ran_app (rs rs' : list response) : ran (rs ++ rs') = (ran rs ++ ran rs')%list.
Proof.
  induction rs as [| r rs IH]; [reflexivity |].
  destruct r; simpl; rewrite IH; reflexivity.
Qed.

(** ** The invariant *)

Lemma pending_not_completed : pending <> completed.
Proof. discriminate. Qed.

Lemma pending_not_failed : pending <> failed.
Proof. discriminate. Qed.

Lemma completed_not_failed : completed <> failed.
Proof. discriminate. Qed.

Lemma row_ok_pending (r : row) : row_ok r -> r.(status) = pending -> r.(receipt) = None.
Proof.
  intros [[_ H] | [[H _] | [H _]]] Hp; [exact H | |]; rewrite Hp in H; discriminate.
Qed.

Lemma consistent_init : consistent init.
Proof.
  constructor; simpl; try constructor; intros; contradiction.
Qed.

Lemma task_key_at (s : system) (k : nat) (h : string) (u : UserOperation) :
  consistent s -> nth_error s.(tasks) k = Some (h, u) ->
  forall h' u', In (h', u') (remove_nth k s.(tasks)) -> h' <> h.
Proof.
  intros C Hk h' u' Hin ->.
  apply (remove_nth_gone k (map fst s.(tasks)) h (tasks_unique s C)).
  - rewrite nth_error_map, Hk. reflexivity.
  - rewrite <- remove_nth_map. change h with (fst (h, u')). apply in_map. exact Hin.
Qed.

Lemma consistent_step (s : system) (e : event) :
  consistent s -> consistent (fst (step s e)).
Proof.
  intros C. destruct e as [b uuid4 time | k w3 | h | |].
  - destruct (step_post_cases s b uuid4 time)
      as [[_ H] | [[_ [_ H]] | [u [text [_ [_ [Hn H]]]]]]]; rewrite H; simpl; try exact C.
    assert (Ht : ~ In uuid4 (map fst s.(tasks))).
    { intros Hin. apply in_map_iff in Hin. destruct Hin as [[h' u'] [<- Hin]].
      apply Hn. exact (tasks_known s C _ _ Hin). }
    constructor; simpl.
    + rewrite map_app. apply NoDup_snoc; [exact (keys_unique s C) | exact Hn].
    + apply Forall_app. split; [exact (rows_ok s C) |].
      constructor; [| constructor]. left. split; reflexivity.
    + rewrite map_app. apply NoDup_snoc; [exact (tasks_unique s C) | exact Ht].
    + intros h' u' Hin. rewrite map_app. apply in_or_app.
      apply in_app_or in Hin. destruct Hin as [Hin | [Hin | []]].
      * left. exact (tasks_known s C _ _ Hin).
      * right. injection Hin as <- _. left. reflexivity.
    + intros h' u' r Hin Hr Hk. apply in_app_or in Hin. apply in_app_or in Hr.
      destruct Hr as [Hr | [<- | []]].
      * destruct Hin as [Hin | [Hin | []]].
        -- exact (tasks_pending s C _ _ _ Hin Hr Hk).
        -- injection Hin as <- _. exfalso. apply Hn. rewrite <- Hk.
           apply in_map. exact Hr.
      * reflexivity.
  - destruct (step_run_cases s k w3) as [[_ H] | [h [u [f [Hk [Hf H]]]]]];
      rewrite H; simpl; [exact C |].
    assert (Hkey : forall x, (f x).(op_hash) = x.(op_hash)).
    { destruct Hf as [[text [rest [_ [_ ->]]]] | [e [_ ->]]]; reflexivity. }
    assert (Hin : In (h, u) s.(tasks)) by (eapply nth_error_In; exact Hk).
    constructor; simpl.
    + rewrite (set_where_keys h f Hkey). exact (keys_unique s C).
    + apply Forall_forall. intros r Hr.
      apply (set_where_in h f) in Hr.
      destruct Hr as [x [Hx [[Hxk ->] | [_ ->]]]].
      * pose proof (tasks_pending s C _ _ _ Hin Hx Hxk) as Hp.
        pose proof (proj1 (Forall_forall _ _) (rows_ok s C) x Hx) as Hok.
        destruct Hf as [[text [rest [_ [-> ->]]]] | [e [_ ->]]].
        -- right. left. split; [reflexivity | exists rest; reflexivity].
        -- right. right. split; [reflexivity | exact (row_ok_pending x Hok Hp)].
      * exact (proj1 (Forall_forall _ _) (rows_ok s C) x Hx).
    + rewrite remove_nth_map. apply remove_nth_NoDup. exact (tasks_unique s C).
    + intros h' u' Hin'. rewrite (set_where_keys h f Hkey).
      apply remove_nth_incl in Hin'. exact (tasks_known s C _ _ Hin').
    + intros h' u' r Hin' Hr Hrk.
      pose proof (task_key_at s k h u C Hk h' u' Hin') as Hne.
      apply remove_nth_incl in Hin'. apply (set_where_in h f) in Hr.
      destruct Hr as [x [Hx [[Hxk ->] | [_ ->]]]].
      * exfalso. apply Hne. rewrite <- Hrk, Hkey. exact Hxk.
      * exact (tasks_pending s C _ _ _ Hin' Hx Hrk).
  - exact C.
  - exact C.
  - destruct C as [C1 C2 C3 C4 C5]. constructor; simpl; try assumption.
    + constructor.
    + intros h' u' [].
    + intros h' u' r [].
Qed.

Lemma consistent_exec (s : system) (es : list event) :
  consistent s -> consistent (exec s es).
Proof.
  revert s. induction es as [| e es IH]; intros s C; simpl; [exact C |].
  apply IH. apply consistent_step. exact C.
Qed.

Lemma consistent_reachable (es : list event) : consistent (exec init es).
Proof. apply consistent_exec. exact consistent_init. Qed.

Lemma find_unique (t : table) (r : row) :
  NoDup (map op_hash t) -> In r t -> find (has_key r.(op_hash)) t = Some r.
Proof.
  induction t as [| x t IH]; intros Hn Hin; [contradiction |].
  simpl in Hn. inversion Hn as [| ? ? Hx Ht]; subst. simpl.
  destruct Hin as [-> | Hin].
  - unfold has_key. rewrite String.eqb_refl. reflexivity.
  - destruct (has_key (op_hash r) x) eqn:E.
    + exfalso. apply Hx. apply has_key_true in E. rewrite E. apply in_map. exact Hin.
    + exact (IH Ht Hin).
Qed.

Lemma set_where_absent (h : string) (f : row -> row) (t : table) :
  ~ In h (map op_hash t) -> set_where h f t = t.
Proof.
  intros Hn. unfold set_where. rewrite <- (map_id t) at 2. apply map_ext_in.
  intros x Hx. destruct (has_key h x) eqn:E; [| reflexivity].
  exfalso. apply Hn. apply has_key_true in E. rewrite <- E. apply in_map. exact Hx.
Qed.

Lemma get_status_found (t : table) (h : string) (r : row) :
  find (has_key h) t = Some r ->
  get_status t h
  = Return {| os_op_hash := h; os_status := r.(status);
              os_receipt := loads_if r.(receipt) |}.
Proof. intros H. unfold get_status, sql_select_status_receipt. rewrite H. reflexivity. Qed.

Lemma get_status_inv (t : table) (h : string) (o : OpStatus) :
  get_status t h = Return o ->
  exists r, find (has_key h) t = Some r /\ o.(os_status) = r.(status).
Proof.
  unfold get_status, sql_select_status_receipt.
  destruct (find (has_key h) t) as [r |]; [| discriminate].
  intros H. injection H as <-. exists r. split; reflexivity.
Qed.

Lemma row_ok_loads (r : row) : row_ok r -> loads_if r.(receipt) = r.(receipt).
Proof.
  intros [[_ H] | [[_ [rest H]] | [_ H]]]; rewrite H; reflexivity.
Qed.

Lemma row_ok_iff (r : row) :
  row_ok r -> (r.(receipt) <> None <-> r.(status) = completed).
Proof.
  intros [[Hs Hr] | [[Hs [rest Hr]] | [Hs Hr]]]; rewrite Hs, Hr; split; intros H;
    try reflexivity; try discriminate; try (exfalso; apply H; reflexivity).
Qed.

(** ** Identifiers *)

Lemma step_keys (s : system) (e : event) :
  map op_hash (fst (step s e)).(db)
  = (map op_hash s.(db) ++ issued [snd (step s e)])%list.
Proof.
  destruct e as [b uuid4 time | k w3 | h | |];
    try (simpl; symmetry; apply app_nil_r).
  - destruct (step_post_cases s b uuid4 time)
      as [[_ H] | [[_ [_ H]] | [u [text [_ [_ [_ H]]]]]]]; rewrite H; simpl;
      try (symmetry; apply app_nil_r).
    rewrite map_app. reflexivity.
  - destruct (step_run_cases s k w3) as [[_ H] | [h [u [f [_ [Hf H]]]]]];
      rewrite H; simpl; [symmetry; apply app_nil_r |].
    rewrite app_nil_r. apply set_where_keys.
    destruct Hf as [[text [rest [_ [_ ->]]]] | [e [_ ->]]]; reflexivity.
Qed.

Lemma exec_keys (s : system) (es : list event) :
  map op_hash (exec s es).(db)
  = (map op_hash s.(db) ++ issued (responses s es))%list.
Proof.
  revert s. induction es as [| e es IH]; intros s.
  - simpl. symmetry. apply app_nil_r.
  - change (exec s (e :: es)) with (exec (fst (step s e)) es).
    change (responses s (e :: es))
      with ([snd (step s e)] ++ responses (fst (step s e)) es)%list.
    rewrite IH, step_keys, issued_app, app_assoc. reflexivity.
Qed.

Lemma reachable_keys (es : list event) :
  map op_hash (exec init es).(db) = issued (responses init es).
Proof. rewrite exec_keys. reflexivity. Qed.

(** ** The claims *)

(** C1.  In every state the service can reach, every row of the table has one
    of three shapes: pending with a NULL receipt (as intake inserts it),
    completed with the serialised chain receipt (as the worker writes it on
    success), or failed with a NULL receipt (as the worker leaves it on
    failure).  Hence the receipt is non-null exactly when the status is
    completed, and a status query for the row reports those very values. *)
Theorem receipt_iff_completed (es : list event) (r : row) :
  In r (exec init es).(db) ->
  row_ok r
  /\ (r.(receipt) <> None <-> r.(status) = completed)
  /\ get_status (exec init es).(db) r.(op_hash)
     = Return {| os_op_hash := r.(op_hash); os_status := r.(status);
                 os_receipt := r.(receipt) |}.
Proof.
  intros Hin. pose proof (consistent_reachable es) as C.
  pose proof (proj1 (Forall_forall _ _) (rows_ok _ C) r Hin) as Hok.
  split; [exact Hok |]. split; [exact (row_ok_iff r Hok) |].
  rewrite (get_status_found _ _ r (find_unique _ r (keys_unique _ C) Hin)).
  rewrite (row_ok_loads r Hok). reflexivity.
Qed.

Lemma receipt_iff_completed_witness :
  In demo_row_X (exec init demo_events).(db)
  /\ (demo_row_X.(receipt) <> None <-> demo_row_X.(status) = completed).
Proof.
  assert (H : In demo_row_X (exec init demo_events).(db)) by (left; reflexivity).
  split; [exact H |].
  exact (proj1 (proj2 (receipt_iff_completed demo_events demo_row_X H))).
Defined.

(** C8.  A status query for an identifier that intake never handed out
    raises the 404 exception: it neither crashes otherwise nor returns a
    body. *)
Theorem get_status_never_issued (es : list event) (h : string) :
  ~ In h (issued (responses init es)) ->
  get_status (exec init es).(db) h = Raise (HTTPException 404 "Operation not found").
Proof.
  intros Hn. rewrite <- reachable_keys in Hn. apply find_has_key_none in Hn.
  unfold get_status, sql_select_status_receipt. rewrite Hn. reflexivity.
Qed.

Lemma get_status_never_issued_witness :
  get_status (exec init [PostSubmitOp (body_of op_A) "X" 1700000000;
                         RunTask 0 good_chain]).(db) "Y"
  = Raise (HTTPException 404 "Operation not found").
Proof.
  apply (get_status_never_issued
           [PostSubmitOp (body_of op_A) "X" 1700000000; RunTask 0 good_chain] "Y").
  simpl. intros [H | []]. discriminate H.
Defined.

(** C6.  Whenever intake answers with an identifier, that identifier is none
    of those handed out before, and a status query made right then, before
    any task has run, answers pending with no receipt.  Intake does answer for
    every body that has all the fields, provided the identifier drawn by
    [uuid4] is a new one. *)
Theorem submit_op_fresh_and_pending
  (es : list event) (b : request_body) (uuid4 : string) (time : Z) :
  let s := exec init es in
  (forall s' h,
      step s (PostSubmitOp b uuid4 time) = (s', SubmitOpResponse (Return h)) ->
      ~ In h (issued (responses init es))
      /\ get_status s'.(db) h
         = Return {| os_op_hash := h; os_status := pending; os_receipt := None |})
  /\ (complete b -> ~ In uuid4 (issued (responses init es)) ->
      exists s', step s (PostSubmitOp b uuid4 time)
                 = (s', SubmitOpResponse (Return uuid4))).
Proof.
  cbv zeta.
  rewrite <- reachable_keys.
  destruct (step_post_cases (exec init es) b uuid4 time)
    as [[Hc H] | [[Hc [Hin H]] | [u [text [Hb [Ht [Hn H]]]]]]]; rewrite H.
  - split; [intros s' h E; discriminate E | intros C; contradiction].
  - split; [intros s' h E; discriminate E | intros _ Hn; contradiction].
  - split.
    + intros s' h E. injection E as <- <-. split; [exact Hn |]. simpl.
      unfold get_status, sql_select_status_receipt.
      rewrite find_has_key_app.
      rewrite (proj2 (find_has_key_none _ _) Hn).
      unfold has_key. simpl. rewrite String.eqb_refl. reflexivity.
    + intros _ _. eexists. reflexivity.
Qed.

Lemma submit_op_fresh_and_pending_witness :
  complete (body_of op_A)
  /\ ~ In "W" (issued (responses init demo_events))
  /\ exists s', step (exec init demo_events) (PostSubmitOp (body_of op_A) "W" 1700000003)
                = (s', SubmitOpResponse (Return "W"))
                /\ get_status s'.(db) "W"
                   = Return {| os_op_hash := "W"; os_status := pending;
                               os_receipt := None |}.
Proof.
  assert (Hc : complete (body_of op_A)).
  { unfold complete. simpl. repeat split; discriminate. }
  assert (Hn : ~ In "W" (issued (responses init demo_events))).
  { simpl. intros [H | [H | [H | []]]]; discriminate H. }
  split; [exact Hc |]. split; [exact Hn |].
  destruct (proj2 (submit_op_fresh_and_pending demo_events (body_of op_A) "W"
                     1700000003) Hc Hn) as [s' Hs].
  exists s'. split; [exact Hs |].
  exact (proj2 (proj1 (submit_op_fresh_and_pending demo_events (body_of op_A) "W"
                         1700000003) s' "W" Hs)).
Defined.

Lemma step_post_accept (s : system) (u : UserOperation) (uuid4 : string) (time : Z) :
  ~ In uuid4 (map op_hash s.(db)) ->
  step s (PostSubmitOp (body_of u) uuid4 time)
  = ({| db := (s.(db) ++ [ {| op_hash := uuid4;
                              user_op := text_of (PyDict (UserOperation_dict u));
                              status := pending; receipt := None;
                              created_at := time |} ])%list;
        tasks := (s.(tasks) ++ [(uuid4, u)])%list |},
     SubmitOpResponse (Return uuid4)).
Proof.
  intros Hn. unfold step, post_submit_op. rewrite validate_body_of. simpl.
  destruct (submit_op_cases s u uuid4 time) as [text [Ht [[Hin _] | [_ H]]]];
    [contradiction |].
  rewrite H. unfold text_of. rewrite Ht. reflexivity.
Qed.

Lemma get_history_keys (t : table) : map os_op_hash (get_history t) = map op_hash t.
Proof.
  unfold get_history, sql_select_all. rewrite !map_map. reflexivity.
Qed.

Lemma get_history_app (t t' : table) :
  get_history (t ++ t')%list = (get_history t ++ get_history t')%list.
Proof. unfold get_history, sql_select_all. rewrite !map_app. reflexivity. Qed.

Lemma remove_nth_middle {A : Type} (l l' : list A) (a : A) :
  remove_nth (List.length l) (l ++ a :: l')%list = (l ++ l')%list.
Proof.
  induction l as [| x l IH]; [reflexivity |].
  change (remove_nth (List.length (x :: l)) ((x :: l) ++ a :: l')%list)
    with (x :: remove_nth (List.length l) (l ++ a :: l')%list).
  rewrite IH. reflexivity.
Qed.

Lemma nth_error_middle {A : Type} (l l' : list A) (a : A) :
  nth_error (l ++ a :: l')%list (List.length l) = Some a.
Proof. induction l as [| x l IH]; [reflexivity | exact IH]. Qed.

Lemma run_first_of_two
  (s : system) (u : UserOperation) (h1 h2 : string) (r1 r2 : row) (w3 : gateway) :
  h1 <> h2 -> ~ In h2 (map op_hash s.(db)) ->
  r1.(op_hash) = h1 -> r2.(op_hash) = h2 ->
  let s2 := {| db := (s.(db) ++ [r1; r2])%list;
               tasks := (s.(tasks) ++ [(h1, u); (h2, u)])%list |} in
  let s3 := fst (step s2 (RunTask (List.length s.(tasks)) w3)) in
  snd (step s2 (RunTask (List.length s.(tasks)) w3)) = TaskRan h1
  /\ s3.(tasks) = (s.(tasks) ++ [(h2, u)])%list
  /\ find (has_key h2) s3.(db) = Some r2.
Proof.
  intros Hne Hn Hr1 Hr2. cbv zeta.
  match goal with |- context [step ?x _] => set (s2 := x) end.
  destruct (step_run_cases s2 (List.length s.(tasks)) w3)
    as [[Hk _] | [h [u' [f [Hk [Hf H]]]]]];
    unfold s2 in Hk; cbn [tasks] in Hk; rewrite nth_error_middle in Hk;
    [discriminate Hk |].
  injection Hk as <- <-. rewrite H. cbn [fst snd tasks db]. unfold s2. cbn [tasks db].
  split; [reflexivity |]. split; [apply remove_nth_middle |].
  assert (Hkey : forall x, (f x).(op_hash) = x.(op_hash)).
  { destruct Hf as [[text [rest [_ [_ ->]]]] | [e [_ ->]]]; reflexivity. }
  rewrite (set_where_find h1 f Hkey).
  change (s.(db) ++ [r1; r2])%list with (s.(db) ++ [r1] ++ [r2])%list.
  rewrite app_assoc, !find_has_key_app.
  rewrite (proj2 (find_has_key_none _ _) Hn).
  assert (E1 : has_key h2 r1 = false) by (apply has_key_false; congruence).
  assert (E2 : has_key h2 r2 = true) by (apply has_key_true; exact Hr2).
  assert (E3 : has_key h1 r2 = false) by (apply has_key_false; congruence).
  rewrite E1, E2, E3. reflexivity.
Qed.

(** C7.  The history lists the table row by row, and the identifiers it shows
    are exactly those intake has answered with, each once and in the order of
    the answers.  Nothing compares operations: the same operation submitted
    twice gets two rows and two scheduled tasks, and running the task of the
    first leaves the second scheduled and its row pending. *)
Theorem history_one_entry_per_intake (es : list event) :
  let s := exec init es in
  map os_op_hash (get_history s.(db)) = issued (responses init es)
  /\ NoDup (issued (responses init es))
  /\ forall (u : UserOperation) (h1 h2 : string) (t1 t2 : Z),
       h1 <> h2 ->
       ~ In h1 (issued (responses init es)) ->
       ~ In h2 (issued (responses init es)) ->
       let twice := [PostSubmitOp (body_of u) h1 t1; PostSubmitOp (body_of u) h2 t2] in
       responses s twice = [SubmitOpResponse (Return h1); SubmitOpResponse (Return h2)]
       /\ get_history (exec s twice).(db)
          = (get_history s.(db)
             ++ [ {| os_op_hash := h1; os_status := pending; os_receipt := None |};
                  {| os_op_hash := h2; os_status := pending; os_receipt := None |} ])%list
       /\ (exec s twice).(tasks) = (s.(tasks) ++ [(h1, u); (h2, u)])%list
       /\ forall w3,
            let run := step (exec s twice) (RunTask (List.length s.(tasks)) w3) in
            snd run = TaskRan h1
            /\ (fst run).(tasks) = (s.(tasks) ++ [(h2, u)])%list
            /\ get_status (fst run).(db) h2
               = Return {| os_op_hash := h2; os_status := pending;
                           os_receipt := None |}.
Proof.
  cbv zeta.
  split; [rewrite get_history_keys; apply reachable_keys |].
  split; [rewrite <- reachable_keys; exact (keys_unique _ (consistent_reachable es)) |].
  intros u h1 h2 t1 t2 Hne H1 H2.
  rewrite <- reachable_keys in H1, H2.
  pose proof (step_post_accept (exec init es) u h1 t1 H1) as S1.
  cbn [responses exec]. rewrite S1. cbn [fst snd].
  match goal with
  | |- context [step ?s1 (PostSubmitOp (body_of u) h2 t2)] =>
      assert (S2 : ~ In h2 (map op_hash s1.(db)))
  end.
  { cbn [db]. rewrite map_app. intros Hin. apply in_app_or in Hin.
    destruct Hin as [Hin | [Hin | []]]; [exact (H2 Hin) | exact (Hne Hin)]. }
  rewrite (step_post_accept _ u h2 t2 S2). cbn [fst snd db tasks].
  rewrite <- !app_assoc. cbn [app].
  split; [reflexivity |]. split; [rewrite get_history_app; reflexivity |].
  split; [reflexivity |]. intros w3.
  match goal with
  | |- context [step {| db := (_ ++ [?a; ?b])%list; tasks := _ |} _] =>
      pose proof (run_first_of_two (exec init es) u h1 h2 a b w3 Hne H2
                    eq_refl eq_refl) as R
  end.
  cbv zeta in R. destruct R as [R1 [R2 R3]].
  split; [exact R1 |]. split; [exact R2 |].
  rewrite (get_status_found _ _ _ R3). reflexivity.
Qed.

Lemma history_one_entry_per_intake_witness :
  let twice := [PostSubmitOp (body_of op_A) "P" 5; PostSubmitOp (body_of op_A) "Q" 5] in
  "P" <> "Q"
  /\ ~ In "P" (issued (responses init demo_events))
  /\ ~ In "Q" (issued (responses init demo_events))
  /\ (exec (exec init demo_events) twice).(tasks)
     = ((exec init demo_events).(tasks) ++ [("P", op_A); ("Q", op_A)])%list.
Proof.
  intros twice.
  assert (H0 : "P" <> "Q") by discriminate.
  assert (H1 : ~ In "P" (issued (responses init demo_events))).
  { simpl. intros [H | [H | [H | []]]]; discriminate H. }
  assert (H2 : ~ In "Q" (issued (responses init demo_events))).
  { simpl. intros [H | [H | [H | []]]]; discriminate H. }
  split; [exact H0 |]. split; [exact H1 |]. split; [exact H2 |].
  exact (proj1 (proj2 (proj2 (proj2 (proj2 (history_one_entry_per_intake demo_events))
                                op_A "P" "Q" 5%Z 5%Z H0 H1 H2)))).
Defined.

(** ** Terminal rows *)

Lemma terminal_not_pending (st : string) : terminal st -> st <> pending.
Proof. intros [-> | ->]; discriminate. Qed.

Lemma step_keeps_terminal (s : system) (e : event) (h : string) (r : row) :
  consistent s ->
  find (has_key h) s.(db) = Some r -> terminal r.(status) ->
  find (has_key h) (fst (step s e)).(db) = Some r.
Proof.
  intros C Hf Ht. destruct e as [b uuid4 time | k w3 | h' | |]; try exact Hf.
  - destruct (step_post_cases s b uuid4 time)
      as [[_ H] | [[_ [_ H]] | [u [text [_ [_ [_ H]]]]]]]; rewrite H; simpl;
      try exact Hf.
    rewrite find_has_key_app, Hf. reflexivity.
  - destruct (step_run_cases s k w3) as [[_ H] | [h0 [u [f [Hk [Hfn H]]]]]];
      rewrite H; simpl; [exact Hf |].
    rewrite set_where_find, Hf.
    + destruct (has_key h0 r) eqn:E; [| reflexivity].
      exfalso. apply (terminal_not_pending _ Ht).
      apply find_has_key in Hf. destruct Hf as [Hin _].
      apply has_key_true in E.
      exact (tasks_pending s C h0 u r (nth_error_In _ _ Hk) Hin E).
    + destruct Hfn as [[text [rest [_ [_ ->]]]] | [x [_ ->]]]; reflexivity.
Qed.

Lemma exec_keeps_terminal (s : system) (es : list event) (h : string) (r : row) :
  consistent s ->
  find (has_key h) s.(db) = Some r -> terminal r.(status) ->
  find (has_key h) (exec s es).(db) = Some r.
Proof.
  revert s. induction es as [| e es IH]; intros s C Hf Ht; simpl; [exact Hf |].
  apply IH; [apply consistent_step; exact C | | exact Ht].
  apply step_keeps_terminal; assumption.
Qed.

Lemma step_ran_cases (s : system) (e : event) :
  ran [snd (step s e)] = []
  \/ exists k h u f,
       nth_error s.(tasks) k = Some (h, u)
       /\ (forall x, (f x).(op_hash) = x.(op_hash))
       /\ (forall x, terminal (f x).(status))
       /\ step s e = ({| db := set_where h f s.(db); tasks := remove_nth k s.(tasks) |},
                      TaskRan h).
Proof.
  destruct e as [b uuid4 time | k w3 | h' | |]; try (left; reflexivity).
  - left. unfold step. destruct (post_submit_op s b uuid4 time) as [[s' h] | x];
      reflexivity.
  - destruct (step_run_cases s k w3) as [[_ H] | [h [u [f [Hk [Hf H]]]]]].
    + left. rewrite H. reflexivity.
    + right. exists k, h, u, f. split; [exact Hk |].
      destruct Hf as [[text [rest [_ [_ ->]]]] | [x [_ ->]]].
      * split; [reflexivity |]. split; [intros x; left; reflexivity | exact H].
      * split; [reflexivity |]. split; [intros y; right; reflexivity | exact H].
Qed.

Lemma ran_terminal (es : list event) :
  NoDup (ran (responses init es))
  /\ forall h, In h (ran (responses init es)) ->
       exists r, find (has_key h) (exec init es).(db) = Some r /\ terminal r.(status).
Proof.
  induction es as [| e es [IHn IHt]] using rev_ind.
  - split; [constructor | intros h []].
  - rewrite responses_app, ran_app, exec_app.
    pose proof (consistent_reachable es) as C.
    set (s := exec init es) in *. cbn [exec responses].
    destruct (step_ran_cases s e) as [H | [k [h0 [u [f [Hk [Hkey [Hterm H]]]]]]]].
    + rewrite H, app_nil_r. split; [exact IHn |].
      intros h Hin. destruct (IHt h Hin) as [r [Hf Ht]]. exists r.
      split; [apply step_keeps_terminal; assumption | exact Ht].
    + rewrite H. cbn [fst snd ran db].
      pose proof (nth_error_In _ _ Hk) as Hin0.
      assert (Hnew : ~ In h0 (ran (responses init es))).
      { intros Hin. destruct (IHt h0 Hin) as [r [Hf Ht]].
        apply (terminal_not_pending _ Ht).
        apply find_has_key in Hf. destruct Hf as [Hr Hrk].
        exact (tasks_pending s C h0 u r Hin0 Hr Hrk). }
      split; [apply NoDup_snoc; assumption |].
      intros h Hin. apply in_app_or in Hin. destruct Hin as [Hin | [<- | []]].
      * destruct (IHt h Hin) as [r [Hf Ht]]. exists r. split; [| exact Ht].
        pose proof (step_keeps_terminal s e h r C Hf Ht) as K.
        rewrite H in K. exact K.
      * destruct (find (has_key h0) s.(db)) as [x |] eqn:E.
        -- exists (f x). split; [| apply Hterm].
           rewrite (set_where_find h0 f Hkey), E.
           apply find_has_key in E. destruct E as [_ E].
           apply has_key_true in E. rewrite E. reflexivity.
        -- exfalso. apply find_has_key_none in E. apply E.
           exact (tasks_known s C h0 u Hin0).
Qed.

(** C4.  Along every run of the service each identifier sees at most one run
    of its task, hence at most one write of a terminal status; and once a
    status query has answered completed or failed for an identifier, every
    later query for it, whatever happened in between, gives the same answer. *)
Theorem terminal_status_final (es : list event) :
  NoDup (ran (responses init es))
  /\ forall (es' : list event) (h : string) (o : OpStatus),
       get_status (exec init es).(db) h = Return o ->
       terminal o.(os_status) ->
       get_status (exec init (es ++ es')).(db) h = Return o.
Proof.
  split; [exact (proj1 (ran_terminal es)) |].
  intros es' h o Hq Ht. rewrite exec_app.
  destruct (get_status_inv _ _ _ Hq) as [r [Hf Hs]].
  rewrite Hs in Ht.
  rewrite (get_status_found _ _ r
             (exec_keeps_terminal _ es' h r (consistent_reachable es) Hf Ht)).
  rewrite <- Hq. symmetry. apply get_status_found. exact Hf.
Qed.

Lemma terminal_status_final_witness :
  let before := [PostSubmitOp (body_of op_A) "X" 1700000000; RunTask 0 rejecting_chain] in
  let after := [RunTask 0 good_chain; PostSubmitOp (body_of op_A) "X" 1700000009;
                RunTask 0 good_chain; Restart] in
  let o := {| os_op_hash := "X"; os_status := "failed"; os_receipt := None |} in
  get_status (exec init before).(db) "X" = Return o
  /\ terminal o.(os_status)
  /\ get_status (exec init (before ++ after)).(db) "X" = Return o.
Proof.
  intros before after o.
  assert (H1 : get_status (exec init before).(db) "X" = Return o) by reflexivity.
  assert (H2 : terminal o.(os_status)) by (right; reflexivity).
  split; [exact H1 |]. split; [exact H2 |].
  exact (proj2 (terminal_status_final before) after "X" o H1 H2).
Defined.

(** ** The worker *)

Lemma try_block_submit_to_chain (u : UserOperation) (w3 : gateway) :
  try_block u w3 (submit_to_chain u w3).
Proof.
  unfold submit_to_chain.
  destruct (get_transaction_count w3) as [c | e] eqn:E1; cbn [bind];
    [| apply count_raises; exact E1].
  destruct (sign_transaction w3 (build_tx u c)) as [sg | e] eqn:E2; cbn [bind];
    [| eapply sign_raises; eassumption].
  destruct (send_raw_transaction w3 sg) as [th | e] eqn:E3; cbn [bind];
    [| eapply send_raises; eassumption].
  destruct (wait_for_transaction_receipt w3 th) as [rc | e] eqn:E4; cbn [bind];
    [| eapply wait_raises; eassumption].
  destruct (Json.dumps (PyDict rc)) as [text | e] eqn:E5.
  - eapply all_return; eassumption.
  - eapply dumps_raises; eassumption.
Qed.

Lemma try_block_unique (u : UserOperation) (w3 : gateway) (out : py string) :
  try_block u w3 out -> out = submit_to_chain u w3.
Proof.
  intros H. unfold submit_to_chain.
  destruct H as [e H1 | c e H1 H2 | c sg e H1 H2 H3 | c sg th e H1 H2 H3 H4
                 | c sg th rc e H1 H2 H3 H4 H5 | c sg th rc text H1 H2 H3 H4 H5];
    rewrite H1; cbn [bind]; try reflexivity;
    rewrite H2; cbn [bind]; try reflexivity;
    rewrite H3; cbn [bind]; try reflexivity;
    rewrite H4; cbn [bind]; try reflexivity;
    rewrite H5; reflexivity.
Qed.

(** C2, the code at a failing input.  One operation is accepted; building
    the transaction, fetching the sequence number, signing, broadcasting and
    waiting for inclusion all return, and the receipt holds a hash as bytes,
    as the receipts of the chain library do.  The claim asks for a completed
    row that stores the receipt, and lines 78-79 set out to write it; but
    [json.dumps(dict(receipt))] raises on the bytes inside the [try] block,
    the handler runs, and the row of the included operation ends up failed
    with a NULL receipt. *)
Lemma included_yet_failed :
  let s := exec init [PostSubmitOp (body_of op_A) "X" 1700000000] in
  s.(tasks) = [("X", op_A)]
  /\ chain_calls_return op_A bytes_chain
  /\ get_status (fst (step s (RunTask 0 bytes_chain))).(db) "X"
     = Return {| os_op_hash := "X"; os_status := failed; os_receipt := None |}.
Proof.
  cbv zeta. split; [reflexivity |]. split; [| reflexivity].
  exists 7%Z, "0xf86b", "0xabc1",
    [("transactionHash", PyBytes "h"); ("status", PyInt 1)].
  repeat split.
Qed.

(** What one run of a scheduled task writes.  The row of the task is there,
    pending and without a receipt, and the run writes exactly one terminal
    status into it: completed with the text for the receipt when the [try]
    block returns one, failed with the receipt left NULL when the block
    raises, nothing about the exception being kept. *)
Theorem process_op_reaches_terminal
  (es : list event) (k : nat) (h : string) (u : UserOperation) (w3 : gateway)
  (out : py string) :
  let s := exec init es in
  nth_error s.(tasks) k = Some (h, u) ->
  try_block u w3 out ->
  exists r,
    find (has_key h) s.(db) = Some r
    /\ r.(status) = pending /\ r.(receipt) = None
    /\ snd (step s (RunTask k w3)) = TaskRan h
    /\ find (has_key h) (fst (step s (RunTask k w3))).(db)
       = Some match out with
              | Return text =>
                  {| op_hash := h; user_op := r.(user_op); status := completed;
                     receipt := Some text; created_at := r.(created_at) |}
              | Raise _ =>
                  {| op_hash := h; user_op := r.(user_op); status := failed;
                     receipt := None; created_at := r.(created_at) |}
              end.
Proof.
  cbv zeta. intros Hk Hout.
  pose proof (consistent_reachable es) as C. set (s := exec init es) in *.
  pose proof (nth_error_In _ _ Hk) as Hin.
  destruct (find (has_key h) s.(db)) as [r |] eqn:E.
  2:{ exfalso. apply find_has_key_none in E. apply E. exact (tasks_known s C h u Hin). }
  destruct (find_has_key _ _ _ E) as [Hr Hrk].
  pose proof (tasks_pending s C h u r Hin Hr Hrk) as Hp.
  pose proof (row_ok_pending r (proj1 (Forall_forall _ _) (rows_ok s C) r Hr) Hp) as Hn.
  exists r. split; [reflexivity |]. split; [exact Hp |]. split; [exact Hn |].
  apply try_block_unique in Hout. subst out.
  destruct (step_run_cases s k w3) as [[Hk' _] | [h' [u' [f [Hk' [Hf H]]]]]];
    [congruence |].
  rewrite Hk in Hk'. injection Hk' as <- <-. rewrite H. cbn [fst snd db].
  split; [reflexivity |].
  assert (Hkey : forall x, (f x).(op_hash) = x.(op_hash)).
  { destruct Hf as [[text [rest [_ [_ ->]]]] | [e [_ ->]]]; reflexivity. }
  rewrite (set_where_find h f Hkey), E.
  rewrite (proj2 (has_key_true h r) Hrk).
  destruct Hf as [[text [rest [Hs [_ ->]]]] | [e [Hs ->]]]; rewrite Hs;
    unfold with_status_receipt, with_status; rewrite Hrk; [reflexivity |].
  rewrite Hn. reflexivity.
Qed.

Lemma process_op_reaches_terminal_witness :
  let s := exec init demo_events in
  nth_error s.(tasks) 0 = Some ("Z", op_A)
  /\ try_block op_A rejecting_chain (Raise (Web3Error "rejected"))
  /\ find (has_key "Z") (fst (step s (RunTask 0 rejecting_chain))).(db)
     = Some {| op_hash := "Z"; user_op := demo_row_Z.(user_op); status := failed;
               receipt := None; created_at := 1700000002 |}.
Proof.
  cbv zeta.
  assert (H1 : nth_error (exec init demo_events).(tasks) 0 = Some ("Z", op_A))
    by reflexivity.
  assert (H2 : try_block op_A rejecting_chain (Raise (Web3Error "rejected"))).
  { apply (send_raises op_A rejecting_chain 7%Z "0xf86b"); reflexivity. }
  split; [exact H1 |]. split; [exact H2 |].
  destruct (process_op_reaches_terminal demo_events 0 "Z" op_A rejecting_chain
              (Raise (Web3Error "rejected")) H1 H2) as [r [Hf [_ [_ [_ H]]]]].
  rewrite H. injection Hf as <-. reflexivity.
Defined.

(** ** Intake *)








(** ** The status update *)

(** C5, the claim at concrete inputs.  Neither [UPDATE] statement raises:
    for an identifier without a row the statement, and [process_op] as a
    whole, returns with the table unchanged; on a row that is already
    completed the statement returns as well, and the row now reads failed
    (with the receipt it had). *)
Lemma update_is_silent :
  sql_update_status [] failed "nobody" = Return []
  /\ sql_update_status_receipt [] completed "{}" "nobody" = Return []
  /\ process_op [demo_row_Z] "nobody" op_A rejecting_chain = Return [demo_row_Z]
  /\ demo_row_X.(status) = completed
  /\ sql_update_status [demo_row_X] failed "X"
     = Return [ {| op_hash := "X"; user_op := demo_row_X.(user_op);
                   status := failed; receipt := demo_row_X.(receipt);
                   created_at := 1700000000 |} ].
Proof. repeat split. Qed.

(** C5, amended.  The status update is a plain [UPDATE ... WHERE op_hash = ?]
    and never raises.  With an identifier that has no row it changes nothing,
    and so does [process_op]; on the row of the identifier it overwrites the
    status (and the receipt, in the statement that sets one) whatever the
    status was before, terminal or not. *)
Theorem update_never_raises (t : table) (s r h : string) :
  exists t1 t2,
    sql_update_status t s h = Return t1
    /\ sql_update_status_receipt t s r h = Return t2
    /\ (~ In h (map op_hash t) ->
        t1 = t /\ t2 = t /\ forall u w3, process_op t h u w3 = Return t)
    /\ (forall x, find (has_key h) t = Some x ->
        find (has_key h) t1 = Some (with_status s x)
        /\ find (has_key h) t2 = Some (with_status_receipt s r x)).
Proof.
  exists (set_where h (with_status s) t), (set_where h (with_status_receipt s r) t).
  split; [reflexivity |]. split; [reflexivity |]. split.
  - intros Hn. rewrite !set_where_absent by exact Hn.
    split; [reflexivity |]. split; [reflexivity |]. intros u w3.
    destruct (process_op_cases t h u w3) as [[text [rest [_ [_ H]]]] | [e [_ H]]];
      rewrite H, set_where_absent by exact Hn; reflexivity.
  - intros x Hx. pose proof (find_has_key _ _ _ Hx) as [_ Hk].
    apply has_key_true in Hk.
    rewrite !set_where_find by reflexivity. rewrite Hx, Hk. split; reflexivity.
Qed.

Lemma update_never_raises_witness :
  ~ In "nobody" (map op_hash [demo_row_X; demo_row_Y])
  /\ find (has_key "X") [demo_row_X; demo_row_Y] = Some demo_row_X
  /\ exists t1,
       sql_update_status [demo_row_X; demo_row_Y] failed "X" = Return t1
       /\ find (has_key "X") t1 = Some (with_status failed demo_row_X)
       /\ process_op [demo_row_X; demo_row_Y] "nobody" op_A good_chain
          = Return [demo_row_X; demo_row_Y].
Proof.
  assert (H1 : ~ In "nobody" (map op_hash [demo_row_X; demo_row_Y])).
  { simpl. intros [H | [H | []]]; discriminate H. }
  assert (H2 : find (has_key "X") [demo_row_X; demo_row_Y] = Some demo_row_X)
    by reflexivity.
  split; [exact H1 |]. split; [exact H2 |].
  destruct (update_never_raises [demo_row_X; demo_row_Y] failed "{}" "X")
    as [t1 [t2 [E1 [_ [_ Hx]]]]].
  destruct (update_never_raises [demo_row_X; demo_row_Y] failed "{}" "nobody")
    as [t3 [t4 [_ [_ [Hn _]]]]].
  exists t1. split; [exact E1 |]. split; [exact (proj1 (Hx demo_row_X H2)) |].
  exact (proj2 (proj2 (Hn H1)) op_A good_chain).
Defined.

(** ** What the worker leaves alone *)

Lemma set_where_frame (h : string) (f : row -> row) (t : table) :
  (forall x, snapshot (f x) = snapshot x) ->
  Forall2 (fun r r' =>
             r' = if has_key h r
                  then {| op_hash := r.(op_hash); user_op := r.(user_op);
                          status := r'.(status); receipt := r'.(receipt);
                          created_at := r.(created_at) |}
                  else r)
          t (set_where h f t).
Proof.
  intros Hf. induction t as [| x t IH]; simpl; constructor; [| exact IH].
  destruct (has_key h x); [| reflexivity].
  specialize (Hf x). unfold snapshot in Hf. injection Hf as H1 H2 H3.
  destruct (f x) as [a b c d e]. simpl in *. subst. reflexivity.
Qed.

Lemma set_where_snapshot (h : string) (f : row -> row) (t : table) :
  (forall x, snapshot (f x) = snapshot x) ->
  map snapshot (set_where h f t) = map snapshot t.
Proof.
  intros Hf. unfold set_where. rewrite map_map. apply map_ext. intros x.
  destruct (has_key h x); [apply Hf | reflexivity].
Qed.

Lemma step_snapshot (s : system) (e : event) :
  exists added, map snapshot (fst (step s e)).(db) = (map snapshot s.(db) ++ added)%list.
Proof.
  destruct e as [b uuid4 time | k w3 | h | |];
    try (exists []; simpl; symmetry; apply app_nil_r).
  - destruct (step_post_cases s b uuid4 time)
      as [[_ H] | [[_ [_ H]] | [u [text [_ [_ [_ H]]]]]]]; rewrite H; simpl.
    + exists []. symmetry. apply app_nil_r.
    + exists []. symmetry. apply app_nil_r.
    + eexists. rewrite map_app. reflexivity.
  - exists []. rewrite app_nil_r.
    destruct (step_run_cases s k w3) as [[_ H] | [h [u [f [_ [Hf H]]]]]];
      rewrite H; simpl; [reflexivity |].
    apply set_where_snapshot.
    destruct Hf as [[text [rest [_ [_ ->]]]] | [x [_ ->]]]; reflexivity.
Qed.

(** C9.  The terminal update of the worker returns a table with the same
    rows in the same order: a row of another identifier is the row it was,
    and the row of the identifier differs from what it was in the status and
    the receipt at most, so that the serialised operation, the creation time
    and the identifier of every row are those intake wrote.  The same holds
    along any run of the service: whatever happens, the identifier, operation
    and creation time of the rows already there stay, and new rows come
    after them. *)
Theorem process_op_frame (t : table) (h : string) (u : UserOperation) (w3 : gateway) :
  (exists t',
      process_op t h u w3 = Return t'
      /\ map snapshot t' = map snapshot t
      /\ Forall2 (fun r r' =>
                    r' = if has_key h r
                         then {| op_hash := r.(op_hash); user_op := r.(user_op);
                                 status := r'.(status); receipt := r'.(receipt);
                                 created_at := r.(created_at) |}
                         else r)
                 t t')
  /\ forall (s : system) (es : list event),
       exists added,
         map snapshot (exec s es).(db) = (map snapshot s.(db) ++ added)%list.
Proof.
  split.
  - destruct (process_op_cases t h u w3) as [[text [rest [_ [_ H]]]] | [e [_ H]]];
      rewrite H; eexists; (split; [reflexivity |]);
      (split; [apply set_where_snapshot | apply set_where_frame]); reflexivity.
  - intros s es. revert s. induction es as [| e es IH]; intros s.
    + exists []. simpl. symmetry. apply app_nil_r.
    + destruct (step_snapshot s e) as [a1 H1].
      destruct (IH (fst (step s e))) as [a2 H2].
      exists (a1 ++ a2)%list. cbn [exec]. rewrite H2, H1, app_assoc. reflexivity.
Qed.

(** ** What the transaction depends on *)

(** C10.  The encoding function returns the text 0x for every operation,
    and the transaction always goes to the entry point with that payload and
    a gas limit of 1000000.  Two operations with the same two fee rates
    therefore give the same transaction for the same relayer sequence number,
    whatever their sender, nonce, initCode, callData, signature and
    paymasterAndData; and so the worker does the same on the chain and
    writes the same into the table for both. *)
Theorem transaction_ignores_operation (u1 u2 : UserOperation) :
  u1.(maxFeePerGas) = u2.(maxFeePerGas) ->
  u1.(maxPriorityFeePerGas) = u2.(maxPriorityFeePerGas) ->
  encode_user_op (UserOperation_dict u1) = "0x"
  /\ (forall count,
         (build_tx u1 count).(tx_to) = entry_point_address
         /\ (build_tx u1 count).(tx_data) = "0x"
         /\ (build_tx u1 count).(tx_gas) = 1000000%Z
         /\ build_tx u1 count = build_tx u2 count)
  /\ (forall w3, submit_to_chain u1 w3 = submit_to_chain u2 w3)
  /\ (forall t h w3, process_op t h u1 w3 = process_op t h u2 w3).
Proof.
  intros H1 H2.
  assert (B : forall count, build_tx u1 count = build_tx u2 count).
  { intros count. unfold build_tx, encode_user_op. rewrite H1, H2. reflexivity. }
  assert (S : forall w3, submit_to_chain u1 w3 = submit_to_chain u2 w3).
  { intros w3. unfold submit_to_chain.
    destruct (get_transaction_count w3) as [c |]; [| reflexivity].
    cbn [bind]. rewrite B. reflexivity. }
  split; [reflexivity |]. split.
  - intros count. repeat split. apply B.
  - split; [exact S |]. intros t h w3. unfold process_op. rewrite S. reflexivity.
Qed.

Lemma transaction_ignores_operation_witness :
  op_A.(sender) <> op_B.(sender)
  /\ op_A.(maxFeePerGas) = op_B.(maxFeePerGas)
  /\ op_A.(maxPriorityFeePerGas) = op_B.(maxPriorityFeePerGas)
  /\ build_tx op_A 7 = build_tx op_B 7
  /\ process_op [demo_row_Z] "Z" op_A good_chain
     = process_op [demo_row_Z] "Z" op_B good_chain.
Proof.
  assert (H1 : op_A.(maxFeePerGas) = op_B.(maxFeePerGas)) by reflexivity.
  assert (H2 : op_A.(maxPriorityFeePerGas) = op_B.(maxPriorityFeePerGas))
    by reflexivity.
  split; [discriminate |]. split; [exact H1 |]. split; [exact H2 |].
  destruct (transaction_ignores_operation op_A op_B H1 H2) as [_ [B [_ P]]].
  split; [exact (proj2 (proj2 (proj2 (B 7%Z)))) | exact (P [demo_row_Z] "Z" good_chain)].
Defined.

(** * Further properties of the service *)

(** ** Queries *)

Lemma get_history_entries (t : table) : get_history t = map entry_of t.
Proof. unfold get_history, sql_select_all. rewrite map_map. reflexivity. Qed.

Lemma get_status_entry (t : table) (h : string) (o : OpStatus) :
  get_status t h = Return o <-> exists r, find (has_key h) t = Some r /\ o = entry_of r.
Proof.
  unfold get_status, sql_select_status_receipt. split.
  - destruct (find (has_key h) t) as [r |] eqn:E; [| discriminate].
    intros H. injection H as <-. exists r. split; [reflexivity |].
    apply find_has_key in E. destruct E as [_ <-]. reflexivity.
  - intros [r [E ->]]. rewrite E. apply find_has_key in E. destruct E as [_ <-].
    reflexivity.
Qed.

(** X1.  The two queries agree in every state the service can reach: the
    entries of the history are exactly the answers the status query gives,
    so an identifier shown in the history is never reported as not found and
    no status answer is missing from the history. *)
Theorem history_agrees_with_status (es : list event) (o : OpStatus) :
  In o (get_history (exec init es).(db))
  <-> get_status (exec init es).(db) o.(os_op_hash) = Return o.
Proof.
  rewrite get_history_entries, get_status_entry, in_map_iff. split.
  - intros [r [<- Hin]]. exists r. split; [| reflexivity].
    exact (find_unique _ r (keys_unique _ (consistent_reachable es)) Hin).
  - intros [r [Hf ->]]. exists r. split; [reflexivity |].
    exact (proj1 (find_has_key _ _ _ Hf)).
Qed.

(** X2.  An identifier that intake has handed out is found by every later
    status query, whatever happened in between, and the status reported is
    one of pending, completed and failed. *)
Theorem issued_status_known (es es' : list event) (h : string) :
  In h (issued (responses init es)) ->
  exists o,
    get_status (exec init (es ++ es')).(db) h = Return o
    /\ o.(os_op_hash) = h
    /\ (o.(os_status) = pending \/ o.(os_status) = completed
        \/ o.(os_status) = failed).
Proof.
  intros Hin.
  assert (Hk : In h (map op_hash (exec init (es ++ es')).(db))).
  { rewrite reachable_keys, responses_app, issued_app. apply in_or_app. left.
    exact Hin. }
  destruct (find (has_key h) (exec init (es ++ es')).(db)) as [r |] eqn:E.
  2:{ exfalso. apply find_has_key_none in E. exact (E Hk). }
  exists (entry_of r). split; [apply get_status_entry; exists r; split; auto |].
  destruct (find_has_key _ _ _ E) as [Hr Hrk]. split; [exact Hrk |].
  pose proof (proj1 (Forall_forall _ _)
                (rows_ok _ (consistent_reachable (es ++ es'))) r Hr) as Hok.
  destruct Hok as [[H _] | [[H _] | [H _]]]; simpl; auto.
Qed.

Lemma issued_status_known_witness :
  In "Y" (issued (responses init demo_events))
  /\ exists o,
       get_status (exec init (demo_events ++ [Restart; RunTask 0 good_chain])).(db) "Y"
       = Return o
       /\ o.(os_op_hash) = "Y".
Proof.
  assert (H : In "Y" (issued (responses init demo_events))).
  { simpl. right. left. reflexivity. }
  split; [exact H |].
  destruct (issued_status_known demo_events [Restart; RunTask 0 good_chain] "Y" H)
    as [o [H1 [H2 _]]].
  exists o. split; [exact H1 | exact H2].
Defined.

(** X3.  Intake with an identifier that is already a key of the table is
    refused by the primary key: the handler raises the integrity error, and
    the table and the scheduled tasks are what they were. *)
Theorem submit_op_duplicate_identifier
  (s : system) (b : request_body) (uuid4 : string) (time : Z) :
  complete b -> In uuid4 (map op_hash s.(db)) ->
  step s (PostSubmitOp b uuid4 time) = (s, SubmitOpResponse (Raise IntegrityError)).
Proof.
  intros Hc Hin.
  destruct (step_post_cases s b uuid4 time)
    as [[Hn _] | [[_ [_ H]] | [u [text [_ [_ [Hn _]]]]]]];
    [contradiction | exact H | contradiction].
Qed.

Lemma submit_op_duplicate_identifier_witness :
  complete (body_of op_B)
  /\ In "X" (map op_hash (exec init demo_events).(db))
  /\ step (exec init demo_events) (PostSubmitOp (body_of op_B) "X" 1700000005)
     = (exec init demo_events, SubmitOpResponse (Raise IntegrityError)).
Proof.
  assert (H1 : complete (body_of op_B)).
  { unfold complete. simpl. repeat split; discriminate. }
  assert (H2 : In "X" (map op_hash (exec init demo_events).(db))).
  { simpl. left. reflexivity. }
  split; [exact H1 |]. split; [exact H2 |].
  exact (submit_op_duplicate_identifier (exec init demo_events) (body_of op_B) "X"
           1700000005 H1 H2).
Defined.

(** ** Rows over time *)

Lemma step_row_cases (s : system) (e : event) (h : string) (r : row) :
  consistent s ->
  find (has_key h) s.(db) = Some r ->
  find (has_key h) (fst (step s e)).(db) = Some r
  \/ (In h (map fst s.(tasks)) /\ r.(status) = pending
      /\ exists r', find (has_key h) (fst (step s e)).(db) = Some r'
                    /\ terminal r'.(status)
                    /\ snd (step s e) = TaskRan h).
Proof.
  intros C Hf. destruct e as [b uuid4 time | k w3 | h' | |]; try (left; exact Hf).
  - left.
    destruct (step_post_cases s b uuid4 time)
      as [[_ H] | [[_ [_ H]] | [u [text [_ [_ [_ H]]]]]]]; rewrite H; simpl;
      try exact Hf.
    rewrite find_has_key_app, Hf. reflexivity.
  - destruct (step_run_cases s k w3) as [[_ H] | [h0 [u [f [Hk [Hfn H]]]]]];
      rewrite H; cbn [fst snd db]; [left; exact Hf |].
    assert (Hkey : forall x, (f x).(op_hash) = x.(op_hash)).
    { destruct Hfn as [[text [rest [_ [_ ->]]]] | [x [_ ->]]]; reflexivity. }
    rewrite (set_where_find h0 f Hkey), Hf.
    destruct (has_key h0 r) eqn:E; [right | left; reflexivity].
    apply has_key_true in E. destruct (find_has_key _ _ _ Hf) as [Hin Hrk].
    assert (Eh : h0 = h) by congruence. clear E. subst h0.
    pose proof (nth_error_In _ _ Hk) as Ht.
    split; [change h with (fst (h, u)); apply in_map; exact Ht |].
    split; [exact (tasks_pending s C h u r Ht Hin Hrk) |].
    exists (f r). split; [reflexivity |]. split; [| reflexivity].
    destruct Hfn as [[text [rest [_ [_ ->]]]] | [x [_ ->]]];
      [left | right]; reflexivity.
Qed.

Lemma step_tasks_known (s : system) (e : event) (h : string) :
  consistent s ->
  In h (map op_hash s.(db)) -> ~ In h (map fst s.(tasks)) ->
  ~ In h (map fst (fst (step s e)).(tasks)).
Proof.
  intros C Hk Hn. destruct e as [b uuid4 time | k w3 | h' | |]; try exact Hn.
  - destruct (step_post_cases s b uuid4 time)
      as [[_ H] | [[_ [_ H]] | [u [text [_ [_ [Hnew H]]]]]]]; rewrite H; simpl;
      try exact Hn.
    rewrite map_app. intros Hin. apply in_app_or in Hin.
    destruct Hin as [Hin | [Hin | []]]; [exact (Hn Hin) |].
    simpl in Hin. subst uuid4. exact (Hnew Hk).
  - destruct (step_run_cases s k w3) as [[_ H] | [h0 [u [f [_ [_ H]]]]]];
      rewrite H; simpl; [exact Hn |].
    rewrite remove_nth_map. intros Hin. apply Hn. eapply remove_nth_incl. exact Hin.
  - simpl. intros [].
Qed.

Lemma exec_keeps_unscheduled (s : system) (es : list event) (h : string) (r : row) :
  consistent s ->
  ~ In h (map fst s.(tasks)) -> find (has_key h) s.(db) = Some r ->
  find (has_key h) (exec s es).(db) = Some r.
Proof.
  revert s. induction es as [| e es IH]; intros s C Hn Hf; [exact Hf |].
  cbn [exec]. apply IH.
  - apply consistent_step. exact C.
  - apply step_tasks_known; [exact C | | exact Hn].
    apply find_has_key in Hf. destruct Hf as [Hin <-]. apply in_map. exact Hin.
  - destruct (step_row_cases s e h r C Hf) as [H | [Hin _]];
      [exact H | contradiction].
Qed.

(** X4.  A row whose task is not scheduled is never written again: whatever
    happens afterwards, all its columns stay as they are and the status query
    keeps giving the same answer.  Only the task created for an identifier
    ever writes its row. *)
Theorem row_without_task_is_frozen (es es' : list event) (h : string) (r : row) :
  let s := exec init es in
  ~ In h (map fst s.(tasks)) ->
  find (has_key h) s.(db) = Some r ->
  find (has_key h) (exec init (es ++ es')).(db) = Some r
  /\ get_status (exec init (es ++ es')).(db) h = get_status s.(db) h.
Proof.
  cbv zeta. intros Hn Hf. rewrite exec_app.
  pose proof (exec_keeps_unscheduled _ es' h r (consistent_reachable es) Hn Hf) as K.
  split; [exact K |].
  rewrite (get_status_found _ _ _ K), (get_status_found _ _ _ Hf). reflexivity.
Qed.

Lemma row_without_task_is_frozen_witness :
  ~ In "Y" (map fst (exec init demo_events).(tasks))
  /\ find (has_key "Y") (exec init demo_events).(db) = Some demo_row_Y
  /\ find (has_key "Y")
       (exec init (demo_events ++ [RunTask 0 good_chain;
                                   PostSubmitOp (body_of op_B) "Y" 1700000007;
                                   RunTask 0 good_chain])).(db)
     = Some demo_row_Y.
Proof.
  assert (H1 : ~ In "Y" (map fst (exec init demo_events).(tasks))).
  { simpl. intros [H | []]. discriminate H. }
  assert (H2 : find (has_key "Y") (exec init demo_events).(db) = Some demo_row_Y)
    by reflexivity.
  split; [exact H1 |]. split; [exact H2 |].
  exact (proj1 (row_without_task_is_frozen demo_events _ "Y" demo_row_Y H1 H2)).
Defined.

(** X5.  A restart abandons the operations that were not processed yet: the
    scheduled tasks are gone and nothing creates them again, so every status
    answer given right after the restart, a pending one included, is given
    unchanged for ever after. *)
Theorem restart_abandons_pending (es es' : list event) (h : string) (o : OpStatus) :
  get_status (exec init (es ++ [Restart])).(db) h = Return o ->
  get_status (exec init ((es ++ [Restart]) ++ es')).(db) h = Return o.
Proof.
  intros Hq. destruct (proj1 (get_status_entry _ _ _) Hq) as [r [Hf ->]].
  apply get_status_entry. exists r. split; [| reflexivity].
  rewrite exec_app.
  apply (exec_keeps_unscheduled _ es' h r (consistent_reachable (es ++ [Restart])));
    [| exact Hf].
  rewrite exec_app. simpl. intros [].
Qed.

Lemma restart_abandons_pending_witness :
  let o := {| os_op_hash := "Z"; os_status := pending; os_receipt := None |} in
  get_status (exec init (demo_events ++ [Restart])).(db) "Z" = Return o
  /\ get_status (exec init ((demo_events ++ [Restart])
                            ++ [RunTask 0 good_chain; GetHistory;
                                PostSubmitOp (body_of op_A) "W" 1700000009;
                                RunTask 0 good_chain])).(db) "Z"
     = Return o.
Proof.
  intros o.
  assert (H : get_status (exec init (demo_events ++ [Restart])).(db) "Z" = Return o)
    by reflexivity.
  split; [exact H |].
  exact (restart_abandons_pending demo_events _ "Z" o H).
Defined.

(** X6.  The status of an identifier only moves forward.  Of two answers of
    the status query for the same identifier, the later one is the earlier
    one, or else the earlier one was pending without a receipt and the later
    one is completed or failed: a record never goes back to pending and never
    passes from one terminal status to the other. *)
Theorem status_only_moves_forward
  (es es' : list event) (h : string) (o o' : OpStatus) :
  get_status (exec init es).(db) h = Return o ->
  get_status (exec init (es ++ es')).(db) h = Return o' ->
  o' = o
  \/ (o.(os_status) = pending /\ o.(os_receipt) = None /\ terminal o'.(os_status)).
Proof.
  intros Hq Hq'. rewrite exec_app in Hq'.
  destruct (proj1 (get_status_entry _ _ _) Hq) as [r [Hf ->]].
  destruct (proj1 (get_status_entry _ _ _) Hq') as [r' [Hf' ->]].
  pose proof (consistent_reachable es) as C. set (s := exec init es) in *.
  clearbody s. clear Hq Hq'. revert s r C Hf Hf'.
  induction es' as [| e es' IH]; intros s r C Hf Hf'.
  - simpl in Hf'. left. congruence.
  - cbn [exec] in Hf'.
    destruct (step_row_cases s e h r C Hf) as [H | [_ [Hp [r1 [H1 [Ht _]]]]]].
    + exact (IH _ r (consistent_step s e C) H Hf').
    + right. split; [exact Hp |]. split.
      * apply find_has_key in Hf. destruct Hf as [Hin _].
        pose proof (proj1 (Forall_forall _ _) (rows_ok s C) r Hin) as Hok.
        simpl. rewrite (row_ok_pending r Hok Hp). reflexivity.
      * pose proof (exec_keeps_terminal _ es' h r1 (consistent_step s e C) H1 Ht) as K.
        rewrite K in Hf'. injection Hf' as <-. exact Ht.
Qed.

Lemma status_only_moves_forward_witness :
  let o := {| os_op_hash := "Z"; os_status := pending; os_receipt := None |} in
  let o' := {| os_op_hash := "Z"; os_status := failed; os_receipt := None |} in
  get_status (exec init demo_events).(db) "Z" = Return o
  /\ get_status (exec init (demo_events ++ [RunTask 0 bytes_chain])).(db) "Z" = Return o'
  /\ (o' = o
      \/ (o.(os_status) = pending /\ o.(os_receipt) = None /\ terminal o'.(os_status))).
Proof.
  intros o o'.
  assert (H1 : get_status (exec init demo_events).(db) "Z" = Return o) by reflexivity.
  assert (H2 : get_status (exec init (demo_events ++ [RunTask 0 bytes_chain])).(db) "Z"
               = Return o') by reflexivity.
  split; [exact H1 |]. split; [exact H2 |].
  exact (status_only_moves_forward demo_events [RunTask 0 bytes_chain] "Z" o o' H1 H2).
Defined.

(** ** Tasks *)

Lemma remove_nth_other {A : Type} (k : nat) (l : list A) (x y : A) :
  In x l -> nth_error l k = Some y -> x <> y -> In x (remove_nth k l).
Proof.
  revert k. induction l as [| a l IH]; intros k Hin Hk Hne; [contradiction |].
  destruct k as [| k].
  - injection Hk as ->. destruct Hin as [-> | Hin]; [contradiction | exact Hin].
  - change (remove_nth (S k) (a :: l)) with (a :: remove_nth k l).
    destruct Hin as [-> | Hin]; [left; reflexivity | right].
    exact (IH k Hin Hk Hne).
Qed.

Lemma no_restart_app (es es' : list event) :
  no_restart (es ++ es') = no_restart es && no_restart es'.
Proof. unfold no_restart. apply forallb_app. Qed.

Lemma issued_covered (es : list event) :
  no_restart es = true ->
  forall h, In h (issued (responses init es)) ->
            In h (ran (responses init es)) \/ In h (map fst (exec init es).(tasks)).
Proof.
  induction es as [| e es IH] using rev_ind; intros Hnr h Hin; [contradiction |].
  rewrite no_restart_app in Hnr. apply andb_prop in Hnr. destruct Hnr as [Hnr He].
  specialize (IH Hnr). rewrite responses_app, ran_app, exec_app.
  rewrite responses_app, issued_app in Hin.
  set (s := exec init es) in *. cbn [exec responses] in *.
  destruct e as [b uuid4 time | k w3 | h' | |].
  - destruct (step_post_cases s b uuid4 time)
      as [[_ H] | [[_ [_ H]] | [u [text [_ [_ [_ H]]]]]]]; rewrite H in *;
      cbn [fst snd issued ran tasks] in *; rewrite app_nil_r in *.
    + exact (IH h Hin).
    + exact (IH h Hin).
    + rewrite map_app. apply in_app_or in Hin. destruct Hin as [Hin | [<- | []]].
      * destruct (IH h Hin) as [K | K]; [left; exact K |].
        right. apply in_or_app. left. exact K.
      * right. apply in_or_app. right. left. reflexivity.
  - destruct (step_run_cases s k w3) as [[_ H] | [h0 [u [f [Hk [_ H]]]]]];
      rewrite H in *; cbn [fst snd issued ran tasks] in *; rewrite app_nil_r in Hin.
    + rewrite app_nil_r. exact (IH h Hin).
    + destruct (IH h Hin) as [K | K]; [left; apply in_or_app; left; exact K |].
      destruct (string_dec h h0) as [-> | Hne].
      * left. apply in_or_app. right. left. reflexivity.
      * right. rewrite remove_nth_map.
        apply (remove_nth_other k _ h h0 K); [| exact Hne].
        rewrite nth_error_map, Hk. reflexivity.
  - cbn [step fst snd issued ran] in *. rewrite app_nil_r in *. exact (IH h Hin).
  - cbn [step fst snd issued ran] in *. rewrite app_nil_r in *. exact (IH h Hin).
  - discriminate He.
Qed.

(** X7.  One task per accepted operation.  At every moment the identifiers
    whose task has run and those whose task is scheduled have all been handed
    out by intake, and no identifier is in both groups; as long as the
    process has not been restarted, every identifier handed out is in one of
    them, so every accepted operation has been processed or is waiting to
    be. *)
Theorem one_task_per_operation (es : list event) :
  let rs := responses init es in
  let s := exec init es in
  incl (ran rs) (issued rs)
  /\ incl (map fst s.(tasks)) (issued rs)
  /\ (forall h, In h (ran rs) -> ~ In h (map fst s.(tasks)))
  /\ (no_restart es = true ->
      forall h, In h (issued rs) -> In h (ran rs) \/ In h (map fst s.(tasks))).
Proof.
  cbv zeta. pose proof (consistent_reachable es) as C.
  assert (R : forall h, In h (ran (responses init es)) ->
                        exists r, In r (exec init es).(db) /\ r.(op_hash) = h
                                  /\ terminal r.(status)).
  { intros h Hin. destruct (proj2 (ran_terminal es) h Hin) as [r [Hf Ht]].
    destruct (find_has_key _ _ _ Hf) as [Hr Hk]. exists r. auto. }
  split; [| split; [| split]].
  - intros h Hin. destruct (R h Hin) as [r [Hr [<- _]]].
    rewrite <- reachable_keys. apply in_map. exact Hr.
  - intros h Hin. apply in_map_iff in Hin. destruct Hin as [[h' u] [<- Hin]].
    rewrite <- reachable_keys. exact (tasks_known _ C _ _ Hin).
  - intros h Hin Ht. destruct (R h Hin) as [r [Hr [Hk Hterm]]].
    apply in_map_iff in Ht. destruct Ht as [[h' u] [E Ht]]. simpl in E. subst h'.
    exact (terminal_not_pending _ Hterm (tasks_pending _ C h u r Ht Hr Hk)).
  - exact (issued_covered es).
Qed.

Lemma one_task_per_operation_witness :
  no_restart demo_events = true
  /\ In "Z" (issued (responses init demo_events))
  /\ (In "Z" (ran (responses init demo_events))
      \/ In "Z" (map fst (exec init demo_events).(tasks))).
Proof.
  assert (H1 : no_restart demo_events = true) by reflexivity.
  assert (H2 : In "Z" (issued (responses init demo_events))).
  { simpl. right. right. left. reflexivity. }
  split; [exact H1 |]. split; [exact H2 |].
  exact (proj2 (proj2 (proj2 (one_task_per_operation demo_events))) H1 "Z" H2).
Defined.

Lemma tasks_match_rows (s : system) :
  consistent s ->
  (forall h u, In (h, u) s.(tasks) ->
               exists r, find (has_key h) s.(db) = Some r
                         /\ r.(user_op) = text_of (PyDict (UserOperation_dict u))) ->
  forall e h u, In (h, u) (fst (step s e)).(tasks) ->
                exists r, find (has_key h) (fst (step s e)).(db) = Some r
                          /\ r.(user_op) = text_of (PyDict (UserOperation_dict u)).
Proof.
  intros C P e h u Hin. destruct e as [b uuid4 time | k w3 | h' | |];
    try (exact (P h u Hin)).
  - destruct (step_post_cases s b uuid4 time)
      as [[_ H] | [[_ [_ H]] | [u0 [text [Hb [_ [Hn _]]]]]]];
      try (rewrite H in *; exact (P h u Hin)).
    rewrite Hb, (step_post_accept s u0 uuid4 time Hn) in *. cbn [fst db tasks] in *.
    rewrite find_has_key_app. apply in_app_or in Hin.
    destruct Hin as [Hin | [Hin | []]].
    + destruct (P h u Hin) as [r [Hf Hu]]. rewrite Hf. exists r. auto.
    + injection Hin as <- <-.
      rewrite (proj2 (find_has_key_none _ _) Hn).
      unfold has_key. cbn [op_hash]. rewrite String.eqb_refl.
      eexists. split; reflexivity.
  - destruct (step_run_cases s k w3) as [[_ H] | [h0 [u0 [f [_ [Hf H]]]]]];
      rewrite H in *; cbn [fst db tasks] in *; [exact (P h u Hin) |].
    apply remove_nth_incl in Hin. destruct (P h u Hin) as [r [Hr Hu]].
    assert (Hkey : forall x, (f x).(op_hash) = x.(op_hash)).
    { destruct Hf as [[text [rest [_ [_ ->]]]] | [x [_ ->]]]; reflexivity. }
    assert (Huo : forall x, (f x).(user_op) = x.(user_op)).
    { destruct Hf as [[text [rest [_ [_ ->]]]] | [x [_ ->]]]; reflexivity. }
    rewrite (set_where_find h0 f Hkey), Hr. eexists. split; [reflexivity |].
    destruct (has_key h0 r); [rewrite Huo |]; exact Hu.
  - simpl in Hin. contradiction.
Qed.

(** X8.  The worker is handed the operation that was stored.  For every
    scheduled task, the row of its identifier exists, is pending, and its
    [user_op] column is the JSON text of the very operation the task will
    process. *)
Theorem task_matches_snapshot (es : list event) (h : string) (u : UserOperation) :
  In (h, u) (exec init es).(tasks) ->
  exists r,
    find (has_key h) (exec init es).(db) = Some r
    /\ r.(user_op) = text_of (PyDict (UserOperation_dict u))
    /\ r.(status) = pending.
Proof.
  intros Hin.
  assert (P : forall h u, In (h, u) (exec init es).(tasks) ->
                          exists r, find (has_key h) (exec init es).(db) = Some r
                                    /\ r.(user_op)
                                       = text_of (PyDict (UserOperation_dict u))).
  { clear h u Hin. induction es as [| e es IH] using rev_ind.
    - intros h u [].
    - rewrite exec_app. cbn [exec]. intros h u.
      apply (tasks_match_rows _ (consistent_reachable es) IH). }
  destruct (P h u Hin) as [r [Hf Hu]]. exists r.
  split; [exact Hf |]. split; [exact Hu |].
  destruct (find_has_key _ _ _ Hf) as [Hr Hk].
  exact (tasks_pending _ (consistent_reachable es) h u r Hin Hr Hk).
Qed.

Lemma task_matches_snapshot_witness :
  In ("Z", op_A) (exec init demo_events).(tasks)
  /\ exists r, find (has_key "Z") (exec init demo_events).(db) = Some r
               /\ r.(user_op) = text_of (PyDict (UserOperation_dict op_A)).
Proof.
  assert (H : In ("Z", op_A) (exec init demo_events).(tasks)) by (left; reflexivity).
  split; [exact H |].
  destruct (task_matches_snapshot demo_events "Z" op_A H) as [r [H1 [H2 _]]].
  exists r. split; [exact H1 | exact H2].
Defined.

(** * The flash-loan simulator *)

Import Simulator.

(** X11.  [adjust_liquidity] sends its transactions in program order and
    stops at the first that raises: when it returns, exactly the two
    approvals and the change of liquidity were sent; the change of liquidity
    is sent only if both approvals returned; when it raises, the error is
    that of the last transaction sent.  The amount approved covers the amount
    of the second token for every number [randint(900, 1100)] can return
    exactly when [amount_a] is at least its default. *)
Theorem adjust_liquidity_calls
  (cfg : config) (w3 : chain) (dex_router : string) (add : bool)
  (amount_a randint time : Z) :
  let out := adjust_liquidity cfg w3 dex_router add amount_a randint time [] in
  let t1 := approve_tx cfg.(tokenA) dex_router amount_a in
  let t2 := approve_tx cfg.(tokenB) dex_router amount_a in
  let t3 := liquidity_tx cfg dex_router add amount_a randint time in
  (forall r, fst out = Done r -> snd out = [t1; t2; t3] /\ w3 2%nat t3 = Done r)
  /\ (In t3 (snd out) ->
      exists r1 r2, w3 0%nat t1 = Done r1 /\ w3 1%nat t2 = Done r2)
  /\ (forall e, fst out = Fail e ->
      (w3 0%nat t1 = Fail e /\ snd out = [t1])
      \/ (w3 1%nat t2 = Fail e /\ snd out = [t1; t2])
      \/ (w3 2%nat t3 = Fail e /\ snd out = [t1; t2; t3]))
  /\ ((forall drawn, (900 <= drawn <= 1100)%Z ->
                     (drawn * 10 ^ 18 <= amount_a + amount_b_delta)%Z)
      <-> (default_amount_a <= amount_a)%Z).
Proof.
  cbv zeta.
  assert (E : adjust_liquidity cfg w3 dex_router add amount_a randint time []
              = match w3 0%nat (approve_tx cfg.(tokenA) dex_router amount_a) with
                | Fail e => (Fail e, [approve_tx cfg.(tokenA) dex_router amount_a])
                | Done _ =>
                    match w3 1%nat (approve_tx cfg.(tokenB) dex_router amount_a) with
                    | Fail e => (Fail e, [approve_tx cfg.(tokenA) dex_router amount_a;
                                          approve_tx cfg.(tokenB) dex_router amount_a])
                    | Done _ =>
                        (w3 2%nat (liquidity_tx cfg dex_router add amount_a randint time),
                         [approve_tx cfg.(tokenA) dex_router amount_a;
                          approve_tx cfg.(tokenB) dex_router amount_a;
                          liquidity_tx cfg dex_router add amount_a randint time])
                    end
                end).
  { unfold adjust_liquidity, seq, send_tx. cbn [List.length app].
    fold (approve_tx cfg.(tokenA) dex_router amount_a).
    fold (approve_tx cfg.(tokenB) dex_router amount_a).
    destruct (w3 0%nat _) as [r1 | e1]; [| reflexivity].
    cbn [List.length app].
    destruct (w3 1%nat _) as [r2 | e2]; [| reflexivity].
    destruct add; reflexivity. }
  rewrite E. clear E.
  assert (N1 : liquidity_tx cfg dex_router add amount_a randint time
               <> approve_tx cfg.(tokenA) dex_router amount_a).
  { intros H. apply (f_equal function_name) in H. destruct add; discriminate H. }
  assert (N2 : liquidity_tx cfg dex_router add amount_a randint time
               <> approve_tx cfg.(tokenB) dex_router amount_a).
  { intros H. apply (f_equal function_name) in H. destruct add; discriminate H. }
  split; [| split; [| split]].
  - intros r. destruct (w3 0%nat _) as [r1 | e1]; [| discriminate].
    destruct (w3 1%nat _) as [r2 | e2]; [| discriminate].
    cbn [fst snd]. intros H. split; [reflexivity | exact H].
  - destruct (w3 0%nat _) as [r1 | e1].
    + destruct (w3 1%nat _) as [r2 | e2].
      * intros _. exists r1, r2. split; reflexivity.
      * cbn [snd]. intros [H | [H | []]]; symmetry in H; contradiction.
    + cbn [snd]. intros [H | []]. symmetry in H. contradiction.
  - intros e. destruct (w3 0%nat _) as [r1 | e1].
    + destruct (w3 1%nat _) as [r2 | e2]; cbn [fst snd].
      * intros H. right. right. split; [exact H | reflexivity].
      * intros H. right. left. split; [exact H | reflexivity].
    + cbn [fst snd]. intros H. left. split; [exact H | reflexivity].
  - unfold amount_b_delta, default_amount_a.
    replace (10 ^ 18)%Z with 1000000000000000000%Z by reflexivity.
    split.
    + intros H. specialize (H 1100%Z). lia.
    + intros H drawn Hd. lia.
Qed.

Lemma adjust_liquidity_calls_witness :
  let out := adjust_liquidity demo_config mined_chain "0xD1" true default_amount_a
               1100 1700000000 [] in
  fst out = Done {| arbitrage_events := [] |}
  /\ List.length (snd out) = 3%nat
  /\ In (liquidity_tx demo_config "0xD1" true default_amount_a 1100 1700000000)
        (snd out)
  /\ (default_amount_a <= default_amount_a)%Z
  /\ (1100 * 10 ^ 18 <= default_amount_a + amount_b_delta)%Z.
Proof.
  cbv zeta.
  pose proof (adjust_liquidity_calls demo_config mined_chain "0xD1" true
                default_amount_a 1100 1700000000) as T.
  cbv zeta in T. destruct T as [T1 [T2 [_ T4]]].
  assert (H : fst (adjust_liquidity demo_config mined_chain "0xD1" true
                     default_amount_a 1100 1700000000 [])
              = Done {| arbitrage_events := [] |}) by reflexivity.
  assert (L : (default_amount_a <= default_amount_a)%Z) by apply Z.le_refl.
  destruct (T1 _ H) as [E _].
  split; [exact H |]. split; [rewrite E; reflexivity |].
  split; [rewrite E; right; right; left; reflexivity |].
  split; [exact L |].
  apply (proj2 T4 L 1100%Z). split; [discriminate | apply Z.le_refl].
Defined.

(** X12.  [execute_arbitrage] sends one transaction.  It reports success
    only when the receipt carries an event, and then with the profit and the
    gas of the first event; it reports failure always with profit and gas
    zero, with the penalty only after a contract logic error and without it
    only for a receipt without events.  A contract logic error is never
    passed on to the caller; any other error of the transaction is. *)
Theorem execute_arbitrage_outcome
  (cfg : config) (w3 : chain) (loan_amount min_profit : Z) (log : list sent) :
  let out := execute_arbitrage cfg w3 loan_amount min_profit log in
  let tx := arbitrage_tx cfg loan_amount min_profit in
  let answer := w3 (List.length log) tx in
  snd out = (log ++ [tx])%list
  /\ fst out <> Fail ContractLogicError
  /\ (forall profit gas_used s,
         fst out = Done (true, profit, gas_used, s) ->
         s = NoSlippage
         /\ exists event rest,
              answer = Done {| arbitrage_events := event :: rest |}
              /\ getitem event "profit" = Done profit
              /\ getitem event "gasUsed" = Done gas_used)
  /\ (forall profit gas_used s,
         fst out = Done (false, profit, gas_used, s) ->
         profit = 0%Z /\ gas_used = 0%Z
         /\ (s = Penalty -> answer = Fail ContractLogicError)
         /\ (s = NoSlippage -> answer = Done {| arbitrage_events := [] |}))
  /\ (forall what, answer = Fail (OtherError what) -> fst out = Fail (OtherError what)).
Proof.
  cbv zeta. unfold execute_arbitrage, send_tx.
  fold (arbitrage_tx cfg loan_amount min_profit).
  destruct (w3 (List.length log) (arbitrage_tx cfg loan_amount min_profit))
    as [[events] | [| what]]; cbn [arbitrage_events].
  - destruct events as [| event rest].
    + cbn [fst snd]. repeat split; try discriminate; try congruence.
    + assert (K : forall key e, getitem event key = Fail e -> e <> ContractLogicError).
      { intros key. induction event as [| [k v] ev IH]; intros e H.
        - injection H as <-. discriminate.
        - simpl in H. destruct (String.eqb k key); [discriminate | exact (IH e H)]. }
      destruct (getitem event "profit") as [p | e1] eqn:E1.
      * destruct (getitem event "gasUsed") as [g | e2] eqn:E2; cbn [fst snd].
        -- split; [reflexivity |]. split; [discriminate |]. split.
           ++ intros profit gas_used s H. injection H as <- <- <-.
              split; [reflexivity |]. exists event, rest. auto.
           ++ split; [intros ? ? ? H; discriminate H | intros ? H; discriminate H].
        -- split; [reflexivity |]. split.
           ++ intros H. injection H as H. exact (K _ _ E2 H).
           ++ split; [intros ? ? ? H; discriminate H |].
              split; [intros ? ? ? H; discriminate H | intros ? H; discriminate H].
      * cbn [fst snd]. split; [reflexivity |]. split.
        -- intros H. injection H as H. exact (K _ _ E1 H).
        -- split; [intros ? ? ? H; discriminate H |].
           split; [intros ? ? ? H; discriminate H | intros ? H; discriminate H].
  - cbn [fst snd]. repeat split; try discriminate; try congruence.
  - cbn [fst snd]. repeat split; try discriminate; try congruence.
Qed.

Lemma execute_arbitrage_outcome_witness :
  let out := execute_arbitrage demo_config mined_chain (100 * 10 ^ 18) (1 * 10 ^ 18) [] in
  fst out = Done (true, 7%Z, 90000%Z, NoSlippage)
  /\ exists event rest,
       mined_chain 0%nat (arbitrage_tx demo_config (100 * 10 ^ 18) (1 * 10 ^ 18))
       = Done {| arbitrage_events := event :: rest |}
       /\ getitem event "profit" = Done 7%Z.
Proof.
  cbv zeta.
  assert (H : fst (execute_arbitrage demo_config mined_chain (100 * 10 ^ 18)
                     (1 * 10 ^ 18) [])
              = Done (true, 7%Z, 90000%Z, NoSlippage)) by reflexivity.
  split; [exact H |].
  pose proof (execute_arbitrage_outcome demo_config mined_chain (100 * 10 ^ 18)
                (1 * 10 ^ 18) []) as T.
  cbv zeta in T. destruct T as [_ [_ [T3 _]]].
  destruct (T3 _ _ _ H) as [_ [event [rest [E1 [E2 _]]]]].
  exists event, rest. split; [exact E1 | exact E2].
Defined.
